(** * oauth_starter: the OAuth 2.0 authorization-code engine with PKCE

    A shallow embedding of [oauth_starter/models.py], [oauth_starter/database.py],
    [oauth_starter/auth.py] and the session routes of [oauth_starter/app.py],
    followed by the properties of the engine as it is shipped.

    Conventions of the embedding.
    - A Python [str] is a [string] of UTF-8 code units and [bytes] is a
      [list byte]; [str.encode('utf-8')] is then the identity on code units.
      [str.lower] and [str.upper] are modelled on the ASCII letters: they are
      exact on ASCII text, and a statement that depends on their value says
      that its text is ASCII or takes it from the provider table.
    - A [datetime] is an integer count of microseconds since 1970-01-01.
      Every [datetime.utcnow()] of one call returns the [now] the call is
      given; no statement below depends on two readings being equal.
    - Values decoded from provider responses are [pyval]s; JSON numbers are
      integers.
    - Exceptions are values of [exn]; a failing call returns [Raise e]
      together with the store as it stood when the exception left the call.
    - [Database] binds the name [get_session] twice in its class body.  The
      class keeps the second binding, [get_session(self, session_id)], so
      every [with self.get_session() as s] of the class, a call without
      that argument, raises TypeError before its body runs.  The bodies
      are embedded as they are written, behind that call: a table is the
      list of its rows or a finite map keyed by its primary key, the column
      constraints of [models.py] are checked on INSERT and UPDATE, and a
      value is stored as it is given.
    - [secrets.token_bytes] is an input: each generator takes the random
      bytes it consumes.  HTTP responses are given by an oracle that sees the
      requests made so far; every request is appended to a log. *)

From Stdlib Require Import ZArith NArith List Ascii String Bool Lia Sorted.
From Stdlib Require Import Strings.Byte.
From stdpp Require Import base option list gmap strings.

Local Open Scope Z_scope.
Local Set Warnings "-register-all".

(* ===================================================================== *)
(** * Python values, exceptions and string primitives *)
(* ===================================================================== *)

Module Py.

Inductive exn : Type :=
| ValueError (msg : string)
| KeyError (key : string)
| TypeError
| AttributeError
| IndexError
| JSONDecodeError
| IntegrityError
| TransportError
| HTTPStatusError (status : Z)
| OverflowError.

Inductive result (A : Type) : Type :=
| Ok (a : A)
| Raise (e : exn).
Arguments Ok {A} a.
Arguments Raise {A} e.

Definition rbind {A B : Type} (r : result A) (k : A -> result B) : result B :=
  match r with
  | Ok a => k a
  | Raise e => Raise e
  end.

Inductive pyval : Type :=
| PNone
| PBool (b : bool)
| PInt (z : Z)
| PStr (s : string)
| PList (l : list pyval)
| PDict (d : list (string * pyval)).

(** [dict] lookup in an association list, first binding wins. *)
Fixpoint assoc {A : Type} (k : string) (d : list (string * A)) : option A :=
  match d with
  | [] => None
  | (k', v) :: d' => if String.eqb k k' then Some v else assoc k d'
  end.

(** [d[k] = v] on a dict: replace the binding in place or append it. *)
Fixpoint assoc_set {A : Type} (k : string) (v : A) (d : list (string * A))
  : list (string * A) :=
  match d with
  | [] => [(k, v)]
  | (k', v') :: d' =>
      if String.eqb k k' then (k, v) :: d' else (k', v') :: assoc_set k v d'
  end.

(** Truth value of an object, as tested by [if x], [not x] and [x or y]. *)
Definition truthy (v : pyval) : bool :=
  match v with
  | PNone => false
  | PBool b => b
  | PInt z => negb (z =? 0)
  | PStr s => negb (String.eqb s EmptyString)
  | PList l => match l with [] => false | _ => true end
  | PDict d => match d with [] => false | _ => true end
  end.

Definition py_or (a b : pyval) : pyval := if truthy a then a else b.

(** [v[k]] with a string key. *)
Definition getitem (v : pyval) (k : string) : result pyval :=
  match v with
  | PDict d => match assoc k d with
               | Some x => Ok x
               | None => Raise (KeyError k)
               end
  | _ => Raise TypeError
  end.

(** [v.get(k, default)]; [v.get(k)] is [get v k PNone]. *)
Definition get (v : pyval) (k : string) (default : pyval) : result pyval :=
  match v with
  | PDict d => Ok (match assoc k d with Some x => x | None => default end)
  | _ => Raise AttributeError
  end.

(** [sub in s] on strings. *)
Fixpoint str_contains (sub s : string) : bool :=
  match s with
  | EmptyString => String.prefix sub EmptyString
  | String _ r => String.prefix sub s || str_contains sub r
  end.

Definition pyval_is_str (s : string) (v : pyval) : bool :=
  match v with
  | PStr s' => String.eqb s s'
  | _ => false
  end.

(** [k in v] for a string [k]. *)
Definition contains (k : string) (v : pyval) : result bool :=
  match v with
  | PDict d => Ok (match assoc k d with Some _ => true | None => false end)
  | PList l => Ok (existsb (pyval_is_str k) l)
  | PStr s => Ok (str_contains k s)
  | _ => Raise TypeError
  end.

Definition digit_char (d : Z) : ascii := ascii_of_N (Z.to_N (48 + d)).

Fixpoint dec_digits (fuel : nat) (n : Z) (acc : string) : string :=
  match fuel with
  | O => acc
  | S fuel' =>
      let acc' := String (digit_char (n mod 10)) acc in
      if n / 10 =? 0 then acc' else dec_digits fuel' (n / 10) acc'
  end.

(** [str(n)] for an [int]. *)
Definition str_of_int (n : Z) : string :=
  if n <? 0
  then String "-" (dec_digits (S (Z.to_nat (Z.log2 (- n)))) (- n) EmptyString)
  else dec_digits (S (Z.to_nat (Z.log2 n))) n EmptyString.

(** [c in s] for a character. *)
Fixpoint has_char (x : ascii) (s : string) : bool :=
  match s with
  | EmptyString => false
  | String c r => Ascii.eqb c x || has_char x r
  end.

Definition backslash : ascii := ascii_of_N 92.
Definition single_quote : ascii := ascii_of_N 39.
Definition double_quote : ascii := ascii_of_N 34.

Definition hex_lower (n : N) : ascii :=
  nth (N.to_nat n) (list_ascii_of_string "0123456789abcdef") "0"%char.

(** The quote [repr] puts around a [str]: double quotes when the text has
    a single quote and no double quote, single quotes otherwise. *)
Definition repr_quote (s : string) : ascii :=
  if has_char single_quote s && negb (has_char double_quote s)
  then double_quote else single_quote.

(** One character of [repr(s)]: the backslash and the enclosing quote are
    escaped, tab, line feed and carriage return are written with their
    letter, the other ASCII control characters in hexadecimal; a code unit
    outside ASCII is kept, as [repr] keeps the printable characters. *)
Definition repr_char (quote c : ascii) : string :=
  let n := N_of_ascii c in
  if Ascii.eqb c backslash then String backslash (String backslash EmptyString)
  else if Ascii.eqb c quote then String backslash (String quote EmptyString)
  else if (n =? 9)%N then String backslash "t"
  else if (n =? 10)%N then String backslash "n"
  else if (n =? 13)%N then String backslash "r"
  else if ((n <? 32) || (n =? 127))%N
       then String backslash
              (String "x" (String (hex_lower (n / 16))
                             (String (hex_lower (n mod 16)) EmptyString)))
  else String c EmptyString.

Fixpoint repr_chars (quote : ascii) (s : string) : string :=
  match s with
  | EmptyString => EmptyString
  | String c r => repr_char quote c +:+ repr_chars quote r
  end.

(** [repr(s)] for a [str]. *)
Definition repr_str (s : string) : string :=
  let quote := repr_quote s in
  String quote (repr_chars quote s +:+ String quote EmptyString).

(** [repr(v)]. *)
Fixpoint repr (v : pyval) : string :=
  match v with
  | PNone => "None"
  | PBool true => "True"
  | PBool false => "False"
  | PInt z => str_of_int z
  | PStr s => repr_str s
  | PList l =>
      "[" +:+ (fix items (l : list pyval) : string :=
                 match l with
                 | [] => EmptyString
                 | x :: [] => repr x
                 | x :: r => repr x +:+ ", " +:+ items r
                 end) l +:+ "]"
  | PDict d =>
      "{" +:+ (fix items (d : list (string * pyval)) : string :=
                 match d with
                 | [] => EmptyString
                 | (k, x) :: [] => repr_str k +:+ ": " +:+ repr x
                 | (k, x) :: r => repr_str k +:+ ": " +:+ repr x +:+ ", " +:+ items r
                 end) d +:+ "}"
  end%string.

(** [str(v)], which is also what an f-string field expands to: the text
    itself for a [str], [repr(v)] for the other values. *)
Definition str (v : pyval) : result string :=
  match v with
  | PStr s => Ok s
  | _ => Ok (repr v)
  end.

Definition lower_char (c : ascii) : ascii :=
  let n := N_of_ascii c in
  if ((65 <=? n) && (n <=? 90))%N then ascii_of_N (n + 32) else c.

Fixpoint str_lower (s : string) : string :=
  match s with
  | EmptyString => EmptyString
  | String c r => String (lower_char c) (str_lower r)
  end.

(** [v.lower()]. *)
Definition lower (v : pyval) : result string :=
  match v with
  | PStr s => Ok (str_lower s)
  | _ => Raise AttributeError
  end.

(** [s.rstrip(c)] for a one-character [c]. *)
Fixpoint rstrip (c : ascii) (s : string) : string :=
  match s with
  | EmptyString => EmptyString
  | String a r =>
      match rstrip c r with
      | EmptyString => if Ascii.eqb a c then EmptyString else String a EmptyString
      | r' => String a r'
      end
  end.

Definition is_space (c : ascii) : bool :=
  let n := N_of_ascii c in
  (((9 <=? n) && (n <=? 13)) || ((28 <=? n) && (n <=? 32)))%N.

Definition code_units (l : list N) : string :=
  string_of_list_ascii (map ascii_of_N l).

(** The white space of [str.isspace] outside ASCII, in UTF-8: U+0085,
    U+00A0, U+1680, U+2000 to U+200A, U+2028, U+2029, U+202F, U+205F and
    U+3000. *)
Definition wide_spaces : list string :=
  map code_units
    [ [194; 133]; [194; 160]; [225; 154; 128];
      [226; 128; 128]; [226; 128; 129]; [226; 128; 130]; [226; 128; 131];
      [226; 128; 132]; [226; 128; 133]; [226; 128; 134]; [226; 128; 135];
      [226; 128; 136]; [226; 128; 137]; [226; 128; 138];
      [226; 128; 168]; [226; 128; 169]; [226; 128; 175];
      [226; 129; 159]; [227; 128; 128] ]%N.

Fixpoint drop_chars (n : nat) (s : string) : string :=
  match n, s with
  | S k, String _ r => drop_chars k r
  | _, _ => s
  end.

(** The text after one white space character at the head, if there is one. *)
Definition after_space (wide : list string) (s : string) : option string :=
  match s with
  | EmptyString => None
  | String c r =>
      if is_space c then Some r
      else match find (fun p => String.prefix p s) wide with
           | Some p => Some (drop_chars (String.length p) s)
           | None => None
           end
  end.

Fixpoint lstrip_fuel (wide : list string) (fuel : nat) (s : string) : string :=
  match fuel with
  | O => s
  | S fuel' =>
      match after_space wide s with
      | Some r => lstrip_fuel wide fuel' r
      | None => s
      end
  end.

Fixpoint rev_string (s acc : string) : string :=
  match s with
  | EmptyString => acc
  | String c r => rev_string r (String c acc)
  end.

Definition lstrip_space (s : string) : string :=
  lstrip_fuel wide_spaces (String.length s) s.

(** The same from the right, on the reversed text. *)
Definition rstrip_space (s : string) : string :=
  let r := rev_string s EmptyString in
  rev_string
    (lstrip_fuel (map (fun p => rev_string p EmptyString) wide_spaces)
                 (String.length r) r)
    EmptyString.

(** [s.strip()]. *)
Definition strip (s : string) : string := rstrip_space (lstrip_space s).

(** [s.replace(old, new)] for a non-empty [old]: the occurrences are found
    left to right and do not overlap; [skip] counts the characters of a
    match that is being stepped over. *)
Fixpoint replace_from (old new : string) (skip : nat) (s : string) : string :=
  match s with
  | EmptyString => EmptyString
  | String c r =>
      match skip with
      | S k => replace_from old new k r
      | O =>
          if String.prefix old s
          then new +:+ replace_from old new (String.length old - 1) r
          else String c (replace_from old new O r)
      end
  end.

Definition str_replace (old new s : string) : string := replace_from old new O s.

(** [v.replace(old, new)]. *)
Definition replace (v : pyval) (old new : string) : result string :=
  match v with
  | PStr s => Ok (str_replace old new s)
  | _ => Raise AttributeError
  end.

(** [s.split(sep, 1)] for a one-character [sep]. *)
Fixpoint split1 (sep : ascii) (s : string) : list string :=
  match s with
  | EmptyString => [EmptyString]
  | String c r =>
      if Ascii.eqb c sep then [EmptyString; r]
      else match split1 sep r with
           | h :: t => String c h :: t
           | [] => [String c EmptyString]
           end
  end.

(** [l[i]] on a list. *)
Definition index {A : Type} (l : list A) (i : nat) : result A :=
  match nth_error l i with
  | Some x => Ok x
  | None => Raise IndexError
  end.

(** [s.upper()] on the ASCII letters. *)
Definition upper_char (c : ascii) : ascii :=
  let n := N_of_ascii c in
  if ((97 <=? n) && (n <=? 122))%N then ascii_of_N (n - 32) else c.

Fixpoint str_upper (s : string) : string :=
  match s with
  | EmptyString => EmptyString
  | String c r => String (upper_char c) (str_upper r)
  end.

(** Insertion into a sorted list of distinct strings: [set.add] followed by
    [sorted(list(...))] keeps exactly such a list. *)
Fixpoint sorted_add (x : string) (l : list string) : list string :=
  match l with
  | [] => [x]
  | y :: l' =>
      match String.compare x y with
      | Lt => x :: l
      | Eq => l
      | Gt => y :: sorted_add x l'
      end
  end.

End Py.

(* ===================================================================== *)
(** * [base64], [hashlib.sha256], [secrets] and [urllib.parse] *)
(* ===================================================================== *)

Module Base64.

(** The URL-safe alphabet of RFC 4648, section 5. *)
Definition alphabet : list ascii :=
  list_ascii_of_string
    "ABCDEFGHIJKLMNOPQRSTUVWXYZabcdefghijklmnopqrstuvwxyz0123456789-_".

Definition sextet (n : N) : ascii := nth (N.to_nat n) alphabet "A"%char.

(** The [i]-th six-bit group, counted from the left, of a 24-bit group. *)
Definition group (g : N) (i : N) : ascii :=
  sextet (N.land (N.shiftr g (18 - 6 * i)) 63).

Definition group24 (a b c : byte) : N :=
  (Byte.to_N a * 65536 + Byte.to_N b * 256 + Byte.to_N c)%N.

(** [base64.urlsafe_b64encode]: three bytes give four characters; a last
    group of one or two bytes is padded with [=]. *)
Fixpoint urlsafe_b64encode (bs : list byte) : string :=
  match bs with
  | [] => EmptyString
  | [a] =>
      let g := group24 a Byte.x00 Byte.x00 in
      String (group g 0) (String (group g 1) "==")
  | [a; b] =>
      let g := group24 a b Byte.x00 in
      String (group g 0) (String (group g 1) (String (group g 2) "="))
  | a :: b :: c :: rest =>
      let g := group24 a b c in
      String (group g 0) (String (group g 1) (String (group g 2)
        (String (group g 3) (urlsafe_b64encode rest))))
  end.

End Base64.

Module Secrets.

(** [secrets.token_urlsafe(nbytes)], given the [nbytes] random bytes that
    [token_bytes] drew: Base64 text without its padding. *)
Definition token_urlsafe (tok : list byte) : string :=
  Py.rstrip "=" (Base64.urlsafe_b64encode tok).

End Secrets.

Module Sha256.

Local Open Scope N_scope.

Definition w32 (x : N) : N := N.land x 0xffffffff.
Definition add32 (x y : N) : N := w32 (x + y).
Definition rotr (n x : N) : N := N.lor (N.shiftr x n) (w32 (N.shiftl x (32 - n))).
Definition not32 (x : N) : N := N.lxor x 0xffffffff.

Definition Ch (x y z : N) : N := N.lxor (N.land x y) (N.land (not32 x) z).
Definition Maj (x y z : N) : N :=
  N.lxor (N.lxor (N.land x y) (N.land x z)) (N.land y z).
Definition Sigma0 (x : N) : N := N.lxor (N.lxor (rotr 2 x) (rotr 13 x)) (rotr 22 x).
Definition Sigma1 (x : N) : N := N.lxor (N.lxor (rotr 6 x) (rotr 11 x)) (rotr 25 x).
Definition sigma0 (x : N) : N := N.lxor (N.lxor (rotr 7 x) (rotr 18 x)) (N.shiftr x 3).
Definition sigma1 (x : N) : N := N.lxor (N.lxor (rotr 17 x) (rotr 19 x)) (N.shiftr x 10).

(** The first 64 primes. *)
Definition primes : list N :=
  [ 2; 3; 5; 7; 11; 13; 17; 19; 23; 29; 31; 37; 41; 43; 47; 53;
    59; 61; 67; 71; 73; 79; 83; 89; 97; 101; 103; 107; 109; 113; 127; 131;
    137; 139; 149; 151; 157; 163; 167; 173; 179; 181; 191; 193; 197; 199;
    211; 223; 227; 229; 233; 239; 241; 251; 257; 263; 269; 271; 277; 281;
    283; 293; 307; 311 ].

(** The integer cube root below [2 ^ bits], one bit at a time. *)
Fixpoint cube_root (bits : nat) (x r : N) : N :=
  match bits with
  | O => r
  | S b =>
      let r' := r + N.shiftl 1 (N.of_nat b) in
      cube_root b x (if r' * r' * r' <=? x then r' else r)
  end.

(** The round constants: the first 32 bits of the fractional part of the
    cube root of each prime (FIPS 180-4, section 4.2.2). *)
Definition K : list N :=
  Eval vm_compute in map (fun p => w32 (cube_root 36 (N.shiftl p 96) 0)) primes.

(** The initial hash value: the same bits of the square roots of the
    first eight primes (section 5.3.3). *)
Definition H0 : list N :=
  Eval vm_compute in map (fun p => w32 (N.sqrt (N.shiftl p 64))) (firstn 8 primes).

(** Big-endian bytes of a number, [n] of them. *)
Fixpoint be_bytes (n : nat) (x : N) : list byte :=
  match n with
  | O => []
  | S n' =>
      match Byte.of_N (N.land (N.shiftr x (8 * N.of_nat n')) 255) with
      | Some b => b :: be_bytes n' x
      | None => Byte.x00 :: be_bytes n' x
      end
  end.

Definition be_word (bs : list byte) : N :=
  fold_left (fun acc b => acc * 256 + Byte.to_N b) bs 0.

(** Padding of FIPS 180-4, section 5.1.1. *)
Definition pad (msg : list byte) : list byte :=
  let len := N.of_nat (length msg) in
  let zeros := N.to_nat ((64 - (len + 9) mod 64) mod 64) in
  msg ++ Byte.x80 :: repeat Byte.x00 zeros ++ be_bytes 8 (8 * len).

(** The first [n] groups of [k] elements of a list. *)
Fixpoint chunks {A : Type} (k n : nat) (l : list A) : list (list A) :=
  match n with
  | O => []
  | S n' => firstn k l :: chunks k n' (skipn k l)
  end.

(** The message schedule, newest word first: [rw] holds W(t-1), W(t-2), ... *)
Fixpoint extend (n : nat) (rw : list N) : list N :=
  match n with
  | O => rw
  | S n' =>
      let w := add32 (add32 (sigma1 (nth 1 rw 0)) (nth 6 rw 0))
                     (add32 (sigma0 (nth 14 rw 0)) (nth 15 rw 0)) in
      extend n' (w :: rw)
  end.

Definition schedule (block : list byte) : list N :=
  rev (extend 48 (rev (map be_word (chunks 4 16 block)))).

Definition round (st : list N) (kw : N * N) : list N :=
  match st with
  | [a; b; c; d; e; f; g; h] =>
      let t1 := add32 (add32 (add32 h (Sigma1 e)) (add32 (Ch e f g) (fst kw))) (snd kw) in
      let t2 := add32 (Sigma0 a) (Maj a b c) in
      [add32 t1 t2; a; b; c; add32 d t1; e; f; g]
  | _ => st
  end.

Definition compress (h : list N) (block : list byte) : list N :=
  let st := fold_left round (combine K (schedule block)) h in
  map (fun p => add32 (fst p) (snd p)) (combine h st).

(** [hashlib.sha256(msg).digest()]. *)
Definition sha256 (msg : list byte) : list byte :=
  let p := pad msg in
  let h := fold_left compress (chunks 64 (length p / 64) p) H0 in
  concat (map (be_bytes 4) h).

End Sha256.

Module Urllib.

(** The characters [quote] never escapes. *)
Definition always_safe (c : ascii) : bool :=
  let n := N_of_ascii c in
  (((65 <=? n) && (n <=? 90)) || ((97 <=? n) && (n <=? 122))
   || ((48 <=? n) && (n <=? 57))
   || (n =? 95) || (n =? 46) || (n =? 45) || (n =? 126))%N.

Definition hex_digit (n : N) : ascii :=
  if (n <? 10)%N then ascii_of_N (48 + n) else ascii_of_N (55 + n).

(** [urllib.parse.quote_plus(s)] with the default [safe='']. *)
Fixpoint quote_plus (s : string) : string :=
  match s with
  | EmptyString => EmptyString
  | String c r =>
      if always_safe c then String c (quote_plus r)
      else if Ascii.eqb c " " then String "+" (quote_plus r)
      else
        let n := N_of_ascii c in
        String "%" (String (hex_digit (n / 16)) (String (hex_digit (n mod 16))
          (quote_plus r)))
  end.

Definition pair_text (kv : string * string) : string :=
  quote_plus (fst kv) +:+ "=" +:+ quote_plus (snd kv).

Fixpoint join (sep : string) (l : list string) : string :=
  match l with
  | [] => EmptyString
  | [x] => x
  | x :: l' => x +:+ sep +:+ join sep l'
  end.

(** [urllib.parse.urlencode(params)] for a dict of strings. *)
Definition urlencode (params : list (string * string)) : string :=
  join "&" (map pair_text params).

End Urllib.

(* ===================================================================== *)
(** * [models.py]: the rows *)
(* ===================================================================== *)

Module Datetime.

Import Py.

(** [timedelta(seconds=n)], [timedelta(minutes=n)] and [timedelta(days=n)]
    in microseconds. *)
Definition seconds (n : Z) : Z := n * 1000000.
Definition minutes (n : Z) : Z := seconds (n * 60).
Definition days (n : Z) : Z := seconds (n * 86400).

(** [datetime.min] and [datetime.max]: the first microsecond of year 1 and
    the last of year 9999. *)
Definition min_instant : Z := -62135596800000000.
Definition max_instant : Z := 253402300799999999.

(** [timedelta(seconds=n)] for an [int]: a [timedelta] holds at most
    999999999 days either way. *)
Definition timedelta_seconds (n : Z) : result Z :=
  if (-999999999 <=? n / 86400) && (n / 86400 <=? 999999999)
  then Ok (seconds n) else Raise OverflowError.

(** [t + d] for a [datetime] and a [timedelta]. *)
Definition add (t d : Z) : result Z :=
  if (min_instant <=? t + d) && (t + d <=? max_instant)
  then Ok (t + d) else Raise OverflowError.

End Datetime.

Module User.

Record t : Type := mk {
  user_id : string;
  external_id : string;
  provider : string;
  username : Py.pyval;
  display_name : Py.pyval;
  email : Py.pyval;
  avatar_url : Py.pyval;
  bio : Py.pyval;
  expertise : option (list string);
  vanity_subdomain : Py.pyval;
  oauth_token : Py.pyval;
  oauth_refresh : Py.pyval;
  oauth_expires : option Z;
  created_at : option Z;
  last_activity : option Z
}.

End User.

Module Session.

Record t : Type := mk {
  session_id : string;
  user_id : string;
  created_at : option Z;
  expires_at : Z
}.

(** [Session.is_expired]. *)
Definition is_expired (now : Z) (s : t) : bool := expires_at s <? now.

End Session.

Module OAuthState.

Record t : Type := mk {
  state : string;
  code_verifier : string;
  provider : string;
  created_at : Z;
  expires_at : Z
}.

(** [OAuthState.is_expired]: [datetime.utcnow() > self.expires_at]. *)
Definition is_expired (now : Z) (s : t) : bool := expires_at s <? now.

End OAuthState.

(* ===================================================================== *)
(** * [database.py]: the store *)
(* ===================================================================== *)

Module Database.

Import Py.

Record t : Type := mk {
  users : list User.t;
  sessions : gmap string Session.t;
  oauth_states : gmap string OAuthState.t
}.

Definition empty : t := mk [] ∅ ∅.

Definition with_users (us : list User.t) (db : t) : t :=
  mk us (sessions db) (oauth_states db).
Definition with_sessions (ss : gmap string Session.t) (db : t) : t :=
  mk (users db) ss (oauth_states db).
Definition with_oauth_states (os : gmap string OAuthState.t) (db : t) : t :=
  mk (users db) (sessions db) os.

(** ** The name [get_session] *)

(** The class body has two [def get_session]: line 76, without argument,
    returns [self.SessionLocal()]; line 122, with the argument
    [session_id], returns the row of that session. *)
Inductive get_session_def : Type :=
| open_orm_session
| find_session_row.

Definition class_body : list get_session_def :=
  [open_orm_session; find_session_row].

(** A class keeps the last binding of a name. *)
Definition get_session_binding : option get_session_def := last class_body.

(** [self.get_session()], the call without argument by which every method
    opens its ORM session: the method that is bound wants [session_id],
    so the call raises TypeError. *)
Definition orm_session : result unit :=
  match get_session_binding with
  | Some open_orm_session => Ok tt
  | _ => Raise TypeError
  end.

(** [with self.get_session() as session: body]. *)
Definition with_session {A : Type} (body : result A) : result A :=
  rbind orm_session (fun _ => body).

(** ** The constraints of the [users] table *)

Definition not_null (v : pyval) : bool :=
  match v with
  | PNone => false
  | _ => true
  end.

Fixpoint pyval_eqb (a b : pyval) : bool :=
  match a, b with
  | PNone, PNone => true
  | PBool x, PBool y => Bool.eqb x y
  | PInt x, PInt y => (x =? y)%Z
  | PStr x, PStr y => String.eqb x y
  | PList x, PList y =>
      (fix go (l1 l2 : list pyval) : bool :=
         match l1, l2 with
         | [], [] => true
         | h1 :: t1, h2 :: t2 => pyval_eqb h1 h2 && go t1 t2
         | _, _ => false
         end) x y
  | PDict x, PDict y =>
      (fix go (l1 l2 : list (string * pyval)) : bool :=
         match l1, l2 with
         | [], [] => true
         | (k1, h1) :: t1, (k2, h2) :: t2 =>
             String.eqb k1 k2 && pyval_eqb h1 h2 && go t1 t2
         | _, _ => false
         end) x y
  | _, _ => false
  end.

(** The [nullable=False] columns that a caller can leave unset. *)
Definition columns_not_null (u : User.t) : bool :=
  not_null (User.username u) && not_null (User.display_name u).

(** Two rows that cannot both be stored: same primary key [user_id]. *)
Definition same_key (u v : User.t) : bool :=
  String.eqb (User.user_id u) (User.user_id v).

(** Two rows that break a [unique=True] column: [external_id], or a
    [vanity_subdomain] that is not NULL. *)
Definition unique_clash (u v : User.t) : bool :=
  String.eqb (User.external_id u) (User.external_id v)
  || (not_null (User.vanity_subdomain u)
      && pyval_eqb (User.vanity_subdomain u) (User.vanity_subdomain v)).

(** The column defaults [default=datetime.utcnow], applied on INSERT. *)
Definition user_defaults (now : Z) (u : User.t) : User.t :=
  User.mk (User.user_id u) (User.external_id u) (User.provider u)
    (User.username u) (User.display_name u) (User.email u)
    (User.avatar_url u) (User.bio u) (User.expertise u)
    (User.vanity_subdomain u) (User.oauth_token u) (User.oauth_refresh u)
    (User.oauth_expires u)
    (Some (default now (User.created_at u)))
    (Some (default now (User.last_activity u))).

(** INSERT of a user row. *)
Definition insert_user (now : Z) (user : User.t) (db : t) : result (User.t * t) :=
  let row := user_defaults now user in
  if columns_not_null row
     && negb (existsb (fun v => same_key row v || unique_clash row v) (users db))
  then Ok (row, with_users (users db ++ [row]) db)
  else Raise IntegrityError.

(** ** The methods *)

(** [Database.create_user]: behind the session, [add], [commit] and
    [refresh]. *)
Definition create_user (now : Z) (user : User.t) (db : t) : result (User.t * t) :=
  with_session (insert_user now user db).

(** [Database.get_user]. *)
Definition get_user (user_id : string) (db : t) : result (option User.t) :=
  with_session (Ok (find (fun u => String.eqb (User.user_id u) user_id) (users db))).

(** [Database.get_user_by_external_id]. *)
Definition get_user_by_external_id (external_id : string) (db : t)
  : result (option User.t) :=
  with_session
    (Ok (find (fun u => String.eqb (User.external_id u) external_id) (users db))).

(** [Database.get_user_by_username]. *)
Definition get_user_by_username (username : string) (db : t)
  : result (option User.t) :=
  with_session
    (Ok (find (fun u => pyval_eqb (User.username u) (PStr username)) (users db))).

(** [Database.update_user]: behind the session, [session.merge] of the
    object, which overwrites the row with the object's primary key or
    inserts the object when there is none, then [commit]; the method
    returns the object it was given. *)
Definition update_user (now : Z) (user : User.t) (db : t) : result (User.t * t) :=
  with_session
    (match find (fun u => String.eqb (User.user_id u) (User.user_id user)) (users db) with
     | Some _ =>
         if columns_not_null user
            && negb (existsb (fun v => negb (same_key user v) && unique_clash user v)
                             (users db))
         then Ok (user,
                  with_users (map (fun v => if same_key user v then user else v)
                                  (users db)) db)
         else Raise IntegrityError
     | None => rbind (insert_user now user db) (fun r => Ok (user, snd r))
     end).

Definition session_defaults (now : Z) (s : Session.t) : Session.t :=
  Session.mk (Session.session_id s) (Session.user_id s)
    (Some (default now (Session.created_at s))) (Session.expires_at s).

(** [Database.create_session]. *)
Definition create_session (now : Z) (session_obj : Session.t) (db : t)
  : result (Session.t * t) :=
  with_session
    (let row := session_defaults now session_obj in
     match sessions db !! Session.session_id row with
     | Some _ => Raise IntegrityError
     | None =>
         Ok (row, with_sessions (<[Session.session_id row := row]> (sessions db)) db)
     end).

(** [Database.get_session(session_id)], the method of line 122. *)
Definition get_session (session_id : string) (db : t) : result (option Session.t) :=
  with_session (Ok (sessions db !! session_id)).

(** [Database.delete_session]. *)
Definition delete_session (session_id : string) (db : t) : result t :=
  with_session (Ok (with_sessions (delete session_id (sessions db)) db)).

(** [Database.cleanup_expired_sessions]: behind the session, the rows with
    [expires_at < datetime.utcnow()] are deleted. *)
Definition cleanup_expired_sessions (now : Z) (db : t) : result t :=
  with_session
    (Ok (with_sessions
           (filter (fun kv => ¬ (Session.expires_at kv.2 < now)%Z) (sessions db)) db)).

(** [Database.store_oauth_state]: the row is built first, then the session
    is opened. *)
Definition store_oauth_state (now : Z) (state code_verifier provider : string)
    (db : t) : result t :=
  let oauth_state :=
    OAuthState.mk state code_verifier provider now (now + Datetime.minutes 10) in
  with_session
    (match oauth_states db !! state with
     | Some _ => Raise IntegrityError
     | None => Ok (with_oauth_states (<[state := oauth_state]> (oauth_states db)) db)
     end).

(** The dict [{"code_verifier": ..., "provider": ...}] of [get_oauth_state]. *)
Record state_info : Type := mk_info {
  code_verifier : string;
  provider : string
}.

(** [Database.get_oauth_state]. *)
Definition get_oauth_state (now : Z) (state : string) (db : t)
  : result (option state_info) :=
  with_session
    (Ok (match oauth_states db !! state with
         | None => None
         | Some oauth_state =>
             if OAuthState.is_expired now oauth_state then None
             else Some (mk_info (OAuthState.code_verifier oauth_state)
                                (OAuthState.provider oauth_state))
         end)).

(** [Database.delete_oauth_state]. *)
Definition delete_oauth_state (state : string) (db : t) : result t :=
  with_session (Ok (with_oauth_states (delete state (oauth_states db)) db)).

(** [Database.cleanup_expired_oauth_states]. *)
Definition cleanup_expired_oauth_states (now : Z) (db : t) : result t :=
  with_session
    (Ok (with_oauth_states
           (filter (fun kv => ¬ (OAuthState.expires_at kv.2 < now)%Z) (oauth_states db))
           db)).

End Database.

(* ===================================================================== *)
(** * [httpx]: requests, responses and the provider oracle *)
(* ===================================================================== *)

Module Http.

Import Py.

Inductive request : Type :=
| Post (url : string) (data : list (string * pyval)) (headers : list (string * string))
| Get (url : string) (headers : list (string * string))
      (params : option (list (string * pyval))).

(** A response: its status and its body decoded as JSON, [None] when the
    body is not JSON. *)
Record response : Type := mk {
  status_code : Z;
  body : option pyval
}.

(** What [await client.post(...)] or [await client.get(...)] does: it raises
    (no response arrived) or it returns a response. *)
Inductive outcome : Type :=
| Failed
| Responded (r : response).

(** The provider side: the outcome of a request, given the requests that
    were made before it. *)
Definition oracle : Type := list request -> request -> outcome.

(** [response.raise_for_status()]: only a 2xx status passes. *)
Definition raise_for_status (r : response) : result unit :=
  if (200 <=? status_code r) && (status_code r <=? 299) then Ok tt
  else Raise (HTTPStatusError (status_code r)).

(** [response.json()]. *)
Definition json (r : response) : result pyval :=
  match body r with
  | Some v => Ok v
  | None => Raise JSONDecodeError
  end.

End Http.

(* ===================================================================== *)
(** * The store and the request log threaded through a call *)
(* ===================================================================== *)

Module World.

Import Py.

Record t : Type := mk {
  db : Database.t;
  http_log : list Http.request
}.

(** A computation reads and writes the world and returns or raises. *)
Definition M (A : Type) : Type := t -> result A * t.

Definition ret {A : Type} (a : A) : M A := fun w => (Ok a, w).

Definition raise {A : Type} (e : exn) : M A := fun w => (Raise e, w).

Definition bind {A B : Type} (m : M A) (k : A -> M B) : M B :=
  fun w =>
    match m w with
    | (Ok a, w') => k a w'
    | (Raise e, w') => (Raise e, w')
    end.

(** A pure step that may raise. *)
Definition lift {A : Type} (r : result A) : M A := fun w => (r, w).

(** A call that reads the store and returns or raises. *)
Definition read {A : Type} (f : Database.t -> result A) : M A :=
  fun w => (f (db w), w).

(** A statement that commits or raises; a raise leaves the store as it was. *)
Definition commit {A : Type} (f : Database.t -> result (A * Database.t)) : M A :=
  fun w =>
    match f (db w) with
    | Ok (a, d) => (Ok a, mk d (http_log w))
    | Raise e => (Raise e, w)
    end.

(** An HTTP request: logged, then answered by the oracle. *)
Definition send (http : Http.oracle) (rq : Http.request) : M Http.response :=
  fun w =>
    let w' := mk (db w) (http_log w ++ [rq]) in
    match http (http_log w) rq with
    | Http.Failed => (Raise TransportError, w')
    | Http.Responded r => (Ok r, w')
    end.

End World.

Notation "'let*' x := c1 'in' c2" := (World.bind c1 (fun x => c2))
  (at level 10, x pattern, c1 at level 100, c2 at level 200).
Notation "'do' c1 'then' c2" := (World.bind c1 (fun _ => c2))
  (at level 10, c1 at level 100, c2 at level 200).

(* ===================================================================== *)
(** * [auth.py]: [SocialAuth] *)
(* ===================================================================== *)

Module SocialAuth.

Import Py World.

Local Open Scope string_scope.

Record provider_config : Type := mk_config {
  auth_url : string;
  token_url : string;
  user_info_url : string;
  repos_url : option string;
  scope : string;
  fields : option string
}.

Definition PROVIDERS : list (string * provider_config) :=
  [ ("twitter",
     mk_config "https://twitter.com/i/oauth2/authorize"
               "https://api.twitter.com/2/oauth2/token"
               "https://api.twitter.com/2/users/me"
               None
               "tweet.read users.read follows.read"
               (Some "id,username,name,description,public_metrics,profile_image_url"));
    ("github",
     mk_config "https://github.com/login/oauth/authorize"
               "https://github.com/login/oauth/access_token"
               "https://api.github.com/user"
               (Some "https://api.github.com/user/repos")
               "read:user user:email"
               None);
    ("discord",
     mk_config "https://discord.com/api/oauth2/authorize"
               "https://discord.com/api/oauth2/token"
               "https://discord.com/api/users/@me"
               None
               "identify email guilds"
               None);
    ("linkedin",
     mk_config "https://www.linkedin.com/oauth/v2/authorization"
               "https://www.linkedin.com/oauth/v2/accessToken"
               "https://api.linkedin.com/v2/me"
               None
               "r_liteprofile r_emailaddress"
               None) ].

(** [os.getenv] of the two variables of a provider: [None] when unset. *)
Record creds : Type := mk_creds {
  client_id : option string;
  client_secret : option string
}.

(** The object: [self.callback_base_url] and [self.credentials], a dict
    with exactly the four provider keys. *)
Record t : Type := mk {
  callback_base_url : string;
  twitter : creds;
  github : creds;
  discord : creds;
  linkedin : creds
}.

Definition credentials (self : t) : list (string * creds) :=
  [ ("twitter", twitter self); ("github", github self);
    ("discord", discord self); ("linkedin", linkedin self) ].

(** [d[k]] on the two dicts of the class. *)
Definition lookup {A : Type} (d : list (string * A)) (k : string) : result A :=
  match assoc k d with
  | Some x => Ok x
  | None => Raise (KeyError k)
  end.

Definition opt_str (o : option string) : pyval :=
  match o with
  | Some s => PStr s
  | None => PNone
  end.

(** What a call is given from outside: the instant and the providers. *)
Record env : Type := mk_env {
  now : Z;
  http : Http.oracle
}.

(** [_generate_code_verifier], given the 32 bytes of [secrets.token_bytes]. *)
Definition _generate_code_verifier (tok : list byte) : string :=
  rstrip "=" (Base64.urlsafe_b64encode tok).

(** [_generate_code_challenge]. *)
Definition _generate_code_challenge (verifier : string) : string :=
  let digest := Sha256.sha256 (list_byte_of_string verifier) in
  rstrip "=" (Base64.urlsafe_b64encode digest).

(** [_generate_state], given the 16 bytes behind [secrets.token_urlsafe]. *)
Definition _generate_state (tok : list byte) (redirect_path : string) : string :=
  let random := Secrets.token_urlsafe tok in
  random +:+ ":" +:+ redirect_path.

(** [_generate_user_id]. *)
Definition _generate_user_id (tok : list byte) : string :=
  "user_" +:+ Secrets.token_urlsafe tok.

(** [_generate_session_id]. *)
Definition _generate_session_id (tok : list byte) : string :=
  Secrets.token_urlsafe tok.

Definition redirect_uri (self : t) (provider : string) : string :=
  callback_base_url self +:+ "/auth/callback/" +:+ provider.

(** The [params] dict of [get_auth_url]. *)
Definition auth_params (self : t) (config : provider_config) (cid provider state
    code_challenge : string) : list (string * string) :=
  [ ("client_id", cid);
    ("redirect_uri", redirect_uri self provider);
    ("response_type", "code");
    ("scope", scope config);
    ("state", state);
    ("code_challenge", code_challenge);
    ("code_challenge_method", "S256") ].

(** [get_auth_url]. *)
Definition get_auth_url (self : t) (e : env) (tok_verifier tok_state : list byte)
    (provider redirect_path : string) : M string :=
  match assoc provider PROVIDERS with
  | None => raise (ValueError ("Unknown provider: " +:+ provider))
  | Some config =>
      let* creds := lift (lookup (credentials self) provider) in
      match client_id creds with
      | None | Some EmptyString =>
          raise (ValueError ("Missing " +:+ str_upper provider
                             +:+ "_CLIENT_ID in environment"))
      | Some cid =>
          let code_verifier := _generate_code_verifier tok_verifier in
          let code_challenge := _generate_code_challenge code_verifier in
          let state := _generate_state tok_state redirect_path in
          do commit (fun d =>
               rbind (Database.store_oauth_state (now e) state code_verifier provider d)
                     (fun d' => Ok (tt, d'))) then
          ret (auth_url config +:+ "?"
               +:+ Urllib.urlencode
                     (auth_params self config cid provider state code_challenge))
      end
  end.

Definition bearer_headers (token_text : string) : list (string * string) :=
  [ ("Authorization", "Bearer " +:+ token_text); ("Accept", "application/json") ].

(** [_exchange_code_for_token]. *)
Definition _exchange_code_for_token (self : t) (e : env)
    (provider code code_verifier : string) : M pyval :=
  let* config := lift (lookup PROVIDERS provider) in
  let* creds := lift (lookup (credentials self) provider) in
  let data :=
    [ ("client_id", opt_str (client_id creds));
      ("client_secret", opt_str (client_secret creds));
      ("code", PStr code);
      ("grant_type", PStr "authorization_code");
      ("redirect_uri", PStr (redirect_uri self provider));
      ("code_verifier", PStr code_verifier) ] in
  let* response :=
    send (http e) (Http.Post (token_url config) data [("Accept", "application/json")]) in
  do lift (Http.raise_for_status response) then
  lift (Http.json response).

(** [user_data["repos"] = v]. *)
Definition setitem (user_data : pyval) (k : string) (v : pyval) : result pyval :=
  match user_data with
  | PDict d => Ok (PDict (assoc_set k v d))
  | _ => Raise TypeError
  end.

(** [_get_user_info]. *)
Definition _get_user_info (self : t) (e : env) (provider : string)
    (access_token : pyval) : M pyval :=
  let* config := lift (lookup PROVIDERS provider) in
  let* token_text := lift (str access_token) in
  let* response :=
    send (http e)
      (Http.Get (user_info_url config) (bearer_headers token_text)
         (if String.eqb provider "twitter"
          then Some [("user.fields", opt_str (fields config))]
          else None)) in
  do lift (Http.raise_for_status response) then
  let* user_data := lift (Http.json response) in
  let* user_data :=
    lift (if String.eqb provider "twitter"
          then rbind (contains "data" user_data) (fun wrapped =>
                 if wrapped then getitem user_data "data" else Ok user_data)
          else Ok user_data) in
  if String.eqb provider "github" then
    let* url := lift (match repos_url config with
                      | Some u => Ok u
                      | None => Raise (KeyError "repos_url")
                      end) in
    let* repos_response :=
      send (http e)
        (Http.Get url (bearer_headers token_text)
           (Some [("sort", PStr "updated"); ("per_page", PInt 10)])) in
    if Z.eqb (Http.status_code repos_response) 200 then
      let* repos := lift (Http.json repos_response) in
      lift (setitem user_data "repos" repos)
    else ret user_data
  else ret user_data.

(** The dict built by [_normalize_user_data]. *)
Record normalized : Type := mk_normalized {
  n_id : pyval;
  n_username : pyval;
  n_display_name : pyval;
  n_avatar_url : pyval;
  n_bio : pyval;
  n_email : pyval
}.

(** [a.get(k) or a[k']]. *)
Definition get_or_item (user_info : pyval) (k k' : string) : result pyval :=
  rbind (get user_info k PNone) (fun a =>
    if truthy a then Ok a else getitem user_info k').

(** [_normalize_user_data]; the entries of each dict are evaluated in the
    order they are written. *)
Definition _normalize_user_data (provider : string) (user_info : pyval)
  : result normalized :=
  if String.eqb provider "twitter" then
    rbind (getitem user_info "id") (fun id =>
    rbind (getitem user_info "username") (fun username =>
    rbind (getitem user_info "name") (fun name =>
    rbind (get user_info "profile_image_url" (PStr EmptyString)) (fun image =>
    rbind (replace image "_normal" "_400x400") (fun avatar =>
    rbind (get user_info "description" (PStr EmptyString)) (fun bio =>
    Ok (mk_normalized id username name (PStr avatar) bio PNone)))))))
  else if String.eqb provider "github" then
    rbind (getitem user_info "id") (fun raw_id =>
    rbind (str raw_id) (fun id =>
    rbind (getitem user_info "login") (fun login =>
    rbind (get_or_item user_info "name" "login") (fun name =>
    rbind (getitem user_info "avatar_url") (fun avatar =>
    rbind (get user_info "bio" (PStr EmptyString)) (fun bio =>
    rbind (get user_info "email" PNone) (fun email =>
    Ok (mk_normalized (PStr id) login name avatar bio email))))))))
  else if String.eqb provider "discord" then
    rbind (getitem user_info "id") (fun id =>
    rbind (getitem user_info "username") (fun username =>
    rbind (get_or_item user_info "global_name" "username") (fun name =>
    rbind (getitem user_info "id") (fun id' =>
    rbind (str id') (fun id_text =>
    rbind (getitem user_info "avatar") (fun avatar =>
    rbind (str avatar) (fun avatar_text =>
    rbind (get user_info "email" PNone) (fun email =>
    Ok (mk_normalized id username name
          (PStr ("https://cdn.discordapp.com/avatars/" +:+ id_text +:+ "/"
                 +:+ avatar_text +:+ ".png"))
          (PStr EmptyString) email)))))))))
  else if String.eqb provider "linkedin" then
    rbind (getitem user_info "id") (fun id =>
    rbind (getitem user_info "id") (fun id' =>
    rbind (get user_info "vanityName" id') (fun username =>
    rbind (get user_info "localizedFirstName" (PStr EmptyString)) (fun first =>
    rbind (str first) (fun first_text =>
    rbind (get user_info "localizedLastName" (PStr EmptyString)) (fun last =>
    rbind (str last) (fun last_text =>
    Ok (mk_normalized id username
          (PStr (strip (first_text +:+ " " +:+ last_text)))
          (PStr EmptyString) (PStr EmptyString) PNone))))))))
  else Raise (ValueError ("Unknown provider: " +:+ provider)).

Definition keywords : list string :=
  [ "javascript"; "typescript"; "python"; "rust"; "go"; "java"; "c++";
    "react"; "vue"; "angular"; "node"; "django"; "flask"; "fastapi";
    "design"; "ui/ux"; "figma"; "marketing"; "seo"; "content";
    "crypto"; "web3"; "blockchain"; "defi"; "nft";
    "ai"; "ml"; "machine learning"; "llm"; "gpt";
    "devops"; "docker"; "kubernetes"; "aws"; "gcp" ].

(** [for keyword in keywords: if keyword in text: expertise.add(keyword)]. *)
Definition add_keywords (text : string) (expertise : list string) : list string :=
  fold_left (fun acc keyword =>
               if str_contains keyword text then sorted_add keyword acc else acc)
            keywords expertise.

(** The body of [for repo in user_info["repos"][:10]]. *)
Definition scan_repo (expertise : list string) (repo : pyval) : result (list string) :=
  rbind (get repo "language" PNone) (fun language =>
  rbind (if truthy language
         then rbind (lower language) (fun l => Ok (sorted_add l expertise))
         else Ok expertise) (fun expertise =>
  rbind (get repo "description" PNone) (fun description =>
  rbind (lower (py_or description (PStr EmptyString))) (fun desc =>
  Ok (add_keywords desc expertise))))).

Fixpoint scan_repos (expertise : list string) (repos : list pyval)
  : result (list string) :=
  match repos with
  | [] => Ok expertise
  | repo :: rest => rbind (scan_repo expertise repo) (fun acc => scan_repos acc rest)
  end.

(** [user_info["repos"][:10]] as the sequence the loop runs over.  A
    string is sliced into its characters, on which [repo.get] fails. *)
Definition first_repos (repos : pyval) : result (list pyval) :=
  match repos with
  | PList l => Ok (firstn 10 l)
  | PStr EmptyString => Ok []
  | PStr _ => Raise AttributeError
  | _ => Raise TypeError
  end.

(** [_extract_expertise]: the set is kept as the sorted list of its
    elements, which is what [sorted(list(expertise))] returns. *)
Definition _extract_expertise (bio : pyval) (provider : string) (user_info : pyval)
  : result (list string) :=
  rbind (lower bio) (fun bio_lower =>
  let expertise := add_keywords bio_lower [] in
  if String.eqb provider "github" then
    rbind (contains "repos" user_info) (fun has_repos =>
    if has_repos then
      rbind (getitem user_info "repos") (fun repos =>
      rbind (first_repos repos) (fun repos10 =>
      scan_repos expertise repos10))
    else Ok expertise)
  else Ok expertise).

(** [timedelta(seconds=v)]: a number of seconds ([bool] is an [int]). *)
Definition timedelta_seconds (v : pyval) : result Z :=
  match v with
  | PInt n => Datetime.timedelta_seconds n
  | PBool b => Datetime.timedelta_seconds (if b then 1 else 0)
  | _ => Raise TypeError
  end.

(** [datetime.utcnow() + timedelta(seconds=token_data.get("expires_in", 3600))]. *)
Definition token_expiry (e : env) (token_data : pyval) : result Z :=
  rbind (get token_data "expires_in" (PInt 3600)) (fun expires_in =>
  rbind (timedelta_seconds expires_in) (fun delta =>
  Datetime.add (now e) delta)).

(** [f"{provider}:{normalized['id']}"]. *)
Definition external_id_of (provider : string) (n : normalized) : result string :=
  rbind (str (n_id n)) (fun id => Ok (provider +:+ ":" +:+ id)).

(** The branch [if user:] of [_create_or_update_user]: the attributes are
    assigned in the order written, the object is merged and returned. *)
Definition update_existing (e : env) (user : User.t) (provider : string)
    (n : normalized) (user_info token_data : pyval) : M User.t :=
  let* expertise := lift (_extract_expertise (n_bio n) provider user_info) in
  let* access_token := lift (getitem token_data "access_token") in
  let* refresh_token := lift (get token_data "refresh_token" PNone) in
  let* expires := lift (token_expiry e token_data) in
  let user :=
    User.mk (User.user_id user) (User.external_id user) (User.provider user)
      (User.username user)
      (n_display_name n)
      (User.email user)
      (n_avatar_url n)
      (n_bio n)
      (Some expertise)
      (User.vanity_subdomain user)
      access_token
      refresh_token
      (Some expires)
      (User.created_at user)
      (Some (now e)) in
  do commit (Database.update_user (now e) user) then
  ret user.

(** The branch [else:]: the object is built, inserted, refreshed and
    returned. *)
Definition create_new (e : env) (tok_user : list byte) (external_id provider : string)
    (n : normalized) (user_info token_data : pyval) : M User.t :=
  let* expertise := lift (_extract_expertise (n_bio n) provider user_info) in
  let* access_token := lift (getitem token_data "access_token") in
  let* refresh_token := lift (get token_data "refresh_token" PNone) in
  let* expires := lift (token_expiry e token_data) in
  let user :=
    User.mk (_generate_user_id tok_user) external_id provider
      (n_username n)
      (n_display_name n)
      (n_email n)
      (n_avatar_url n)
      (n_bio n)
      (Some expertise)
      (n_username n)
      access_token
      refresh_token
      (Some expires)
      (Some (now e))
      (Some (now e)) in
  commit (Database.create_user (now e) user).

(** [_create_or_update_user]. *)
Definition _create_or_update_user (e : env) (tok_user : list byte)
    (provider : string) (user_info token_data : pyval) : M User.t :=
  let* n := lift (_normalize_user_data provider user_info) in
  let* external_id := lift (external_id_of provider n) in
  let* user := read (Database.get_user_by_external_id external_id) in
  match user with
  | Some user => update_existing e user provider n user_info token_data
  | None => create_new e tok_user external_id provider n user_info token_data
  end.

(** [_create_session]. *)
Definition _create_session (e : env) (tok_session : list byte) (user_id : string)
  : M Session.t :=
  let session :=
    Session.mk (_generate_session_id tok_session) user_id None
               (now e + Datetime.days 30) in
  commit (Database.create_session (now e) session).

(** [get_user_from_session]. *)
Definition get_user_from_session (now : Z) (session_id : string) (db : Database.t)
  : result (option User.t) :=
  rbind (Database.get_session session_id db) (fun session =>
  match session with
  | None => Ok None
  | Some session =>
      if (Session.expires_at session <? now)%Z then Ok None
      else Database.get_user (Session.user_id session) db
  end).

Definition invalid_state : exn := ValueError "Invalid or expired OAuth state".

Definition provider_mismatch (provider stored_provider : string) : exn :=
  ValueError ("Provider mismatch: " +:+ provider +:+ " != " +:+ stored_provider).

(** [handle_callback]. *)
Definition handle_callback (self : t) (e : env) (tok_user tok_session : list byte)
    (provider code state : string) : M (User.t * Session.t) :=
  let* oauth_state := read (Database.get_oauth_state (now e) state) in
  match oauth_state with
  | None => raise invalid_state
  | Some oauth_state =>
      let code_verifier := Database.code_verifier oauth_state in
      let stored_provider := Database.provider oauth_state in
      if negb (String.eqb provider stored_provider)
      then raise (provider_mismatch provider stored_provider)
      else
        let* token_data := _exchange_code_for_token self e provider code code_verifier in
        let* access_token := lift (getitem token_data "access_token") in
        let* user_info := _get_user_info self e provider access_token in
        let* user := _create_or_update_user e tok_user provider user_info token_data in
        let* session := _create_session e tok_session (User.user_id user) in
        do commit (fun d =>
             rbind (Database.delete_oauth_state state d) (fun d' => Ok (tt, d'))) then
        ret (user, session)
  end.

End SocialAuth.

(* ===================================================================== *)
(** * [app.py]: the redirect path carried by the state *)
(* ===================================================================== *)

Module App.

Import Py.

(** [state.split(":", 1)[1] if ":" in state else "/"]. *)
Definition redirect_path (state : string) : result string :=
  if str_contains ":" state then index (split1 ":" state) 1 else Ok "/"%string.

End App.

(* ===================================================================== *)
(** * Predicates used by the statements *)
(* ===================================================================== *)

Module Inv.

(** The rows of [users] with a given external id. *)
Definition rows_with (external_id : string) (db : Database.t) : list User.t :=
  filter (fun u => User.external_id u = external_id) (Database.users db).

(** Every character of a string satisfies a test. *)
Fixpoint all_chars (p : ascii -> bool) (s : string) : bool :=
  match s with
  | EmptyString => true
  | String c r => p c && all_chars p r
  end.

(** The characters [secrets.token_urlsafe] can produce. *)
Definition url_safe_char (c : ascii) : bool :=
  existsb (Ascii.eqb c) Base64.alphabet.

(** A computation that leaves the store as it found it, whatever it
    returns or raises. *)
Definition keeps_db {A : Type} (m : World.M A) : Prop :=
  forall w, World.db (snd (m w)) = World.db w.

End Inv.

(* ===================================================================== *)
(** * A deployment used to run the definitions *)
(* ===================================================================== *)

Module Example.

Import Py SocialAuth.

Local Open Scope string_scope.

Definition self : SocialAuth.t :=
  SocialAuth.mk "http://localhost:8000"
    (mk_creds (Some "twitter-client") (Some "twitter-secret"))
    (mk_creds (Some "github-client") (Some "github-secret"))
    (mk_creds None None)
    (mk_creds None None).

(** The GitHub profile of the end-to-end example. *)
Definition github_profile : pyval :=
  PDict [ ("id", PInt 123456); ("login", PStr "testuser");
          ("name", PStr "Test User"); ("bio", PStr "Python developer");
          ("avatar_url", PStr "https://github.com/avatar.jpg") ].

(** A token response without [expires_in]. *)
Definition token_response : pyval :=
  PDict [ ("access_token", PStr "test_token") ].

(** A provider that answers every token request with [token_response],
    the profile request with [github_profile] and the repository request
    with status 500. *)
Definition github : Http.oracle :=
  fun _ rq =>
    match rq with
    | Http.Post _ _ _ => Http.Responded (Http.mk 200 (Some token_response))
    | Http.Get url _ _ =>
        if String.eqb url "https://api.github.com/user"
        then Http.Responded (Http.mk 200 (Some github_profile))
        else Http.Responded (Http.mk 500 None)
    end.

Definition at_time (now : Z) : env := mk_env now github.

Definition tok (n : nat) (b : byte) : list byte := repeat b n.

(** A database file without rows. *)
Definition w0 : World.t := World.mk Database.empty [].

Definition state0 : string := _generate_state (tok 16 Byte.x02) "/dashboard".

(** A database file that holds the row of an authorization request for
    GitHub made at instant 1000, the row of a user who logged in through
    GitHub before, and a session of that user that expires at instant
    5000. *)
Definition state_row : OAuthState.t :=
  OAuthState.mk state0 (_generate_code_verifier (tok 32 Byte.x01)) "github"
                1000 (1000 + Datetime.minutes 10).

Definition octocat : User.t :=
  User.mk "user_octocat" "github:123456" "github" (PStr "testuser")
          (PStr "Old Name") PNone (PStr "https://github.com/old.jpg")
          (PStr "Rust developer") (Some ["rust"]) (PStr "testuser")
          (PStr "old_token") PNone (Some 900) (Some 0) (Some 0).

Definition w_stored : World.t :=
  World.mk
    (Database.mk [octocat]
       {[ "sid" := Session.mk "sid" "user_octocat" (Some 0) 5000 ]}
       {[ state0 := state_row ]})
    [].

End Example.

(* ===================================================================== *)
(** * [app.py]: the routes around the engine *)
(* ===================================================================== *)

Module Routes.

Import Py.

(** What a route hands to the framework: a redirect, an [HTTPException]
    it raised itself, or an exception it let through. *)
Inductive reply : Type :=
| RedirectResponse (url : string)
| HTTPException (status_code : Z) (detail : string)
| Unhandled (e : exn).

(** [auth_provider]: [ValueError] becomes [HTTPException(400, str(e))],
    every other exception leaves the route. *)
Definition auth_provider (self : SocialAuth.t) (e : SocialAuth.env)
    (tok_verifier tok_state : list byte) (provider redirect : string)
    (w : World.t) : reply * World.t :=
  match SocialAuth.get_auth_url self e tok_verifier tok_state provider redirect w with
  | (Ok auth_url, w') => (RedirectResponse auth_url, w')
  | (Raise (ValueError msg), w') => (HTTPException 400 msg, w')
  | (Raise ex, w') => (Unhandled ex, w')
  end.

(** [get_current_user], given the [session_id] cookie if there is one. *)
Definition get_current_user (now : Z) (session_id : option string)
    (db : Database.t) : result (option User.t) :=
  match session_id with
  | None => Ok None
  | Some EmptyString => Ok None
  | Some session_id => SocialAuth.get_user_from_session now session_id db
  end.

(** [logout]: the store after the route, which then answers
    [{"success": True}]. *)
Definition logout (session_id : option string) (db : Database.t)
  : result Database.t :=
  match session_id with
  | None => Ok db
  | Some EmptyString => Ok db
  | Some session_id => Database.delete_session session_id db
  end.

End Routes.

(* ===================================================================== *)
(** * Further predicates used by the statements *)
(* ===================================================================== *)

Module Text.

(** The order of [sorted] on strings. *)
Definition lt_string (a b : string) : Prop := String.compare a b = Lt.

(** An ASCII character. *)
Definition is_ascii (c : ascii) : bool := (N_of_ascii c <? 128)%N.

End Text.

(* ===================================================================== *)
(** * Properties *)
(* ===================================================================== *)

Import Py World.

(** ** Strings *)

Lemma append_cons (x : ascii) (a b : string) : String x a +:+ b = String x (a +:+ b).
Proof. reflexivity. Qed.

Lemma append_assoc (a b c : string) : (a +:+ b) +:+ c = a +:+ (b +:+ c).
Proof.
  induction a as [|x a IH]; [reflexivity|].
  rewrite !append_cons. f_equal. exact IH.
Qed.

(** ** Base64 text *)

Lemma sextet_url_safe n : Inv.url_safe_char (Base64.sextet n) = true.
Proof.
  unfold Base64.sextet.
  assert (H : Forall (fun c => Inv.url_safe_char c = true) Base64.alphabet).
  { apply Forall_forall. intros c Hc. unfold Inv.url_safe_char.
    apply existsb_exists. exists c. split; [apply list_elem_of_In, Hc | apply Ascii.eqb_refl]. }
  destruct (nth_in_or_default (N.to_nat n) Base64.alphabet "A"%char) as [Hin | ->].
  - rewrite Forall_forall in H. apply H. apply list_elem_of_In, Hin.
  - reflexivity.
Qed.

Lemma url_safe_not_pad c : Inv.url_safe_char c = true -> Ascii.eqb c "=" = false.
Proof.
  intros H. destruct (Ascii.eqb_spec c "="%char) as [-> | ]; [discriminate H | reflexivity].
Qed.

Lemma rstrip_cons_safe c s :
  Inv.url_safe_char c = true ->
  Py.rstrip "=" (String c s) = String c (Py.rstrip "=" s).
Proof.
  intros H. simpl. rewrite (url_safe_not_pad c H).
  destruct (Py.rstrip "=" s); reflexivity.
Qed.

(** Lists, three elements at a time. *)
Lemma list_ind3 {A : Type} (P : list A -> Prop) :
  P [] -> (forall a, P [a]) -> (forall a b, P [a; b]) ->
  (forall a b c l, P l -> P (a :: b :: c :: l)) ->
  forall l, P l.
Proof.
  intros H0 H1 H2 H3 l.
  assert (H : forall n (l : list A), (length l <= n)%nat -> P l).
  { induction n as [|n IH]; intros [|a [|b [|c r]]] Hl; simpl in Hl; auto; try lia.
    apply H3. apply IH. destruct n as [|[|n]]; simpl; lia. }
  apply (H (length l)). lia.
Qed.

Lemma group_url_safe g i : Inv.url_safe_char (Base64.group g i) = true.
Proof. apply sextet_url_safe. Qed.

Lemma b64_text_url_safe bs :
  Inv.all_chars Inv.url_safe_char (Py.rstrip "=" (Base64.urlsafe_b64encode bs)) = true.
Proof.
  induction bs as [| a | a b | a b c r IH] using list_ind3;
    cbn [Base64.urlsafe_b64encode].
  - reflexivity.
  - rewrite (rstrip_cons_safe _ _ (group_url_safe _ 0)),
            (rstrip_cons_safe _ _ (group_url_safe _ 1)).
    change (Py.rstrip "=" "==") with EmptyString.
    cbn [Inv.all_chars]. now rewrite !group_url_safe.
  - rewrite (rstrip_cons_safe _ _ (group_url_safe _ 0)),
            (rstrip_cons_safe _ _ (group_url_safe _ 1)),
            (rstrip_cons_safe _ _ (group_url_safe _ 2)).
    change (Py.rstrip "=" "=") with EmptyString.
    cbn [Inv.all_chars]. now rewrite !group_url_safe.
  - rewrite (rstrip_cons_safe _ _ (group_url_safe _ 0)),
            (rstrip_cons_safe _ _ (group_url_safe _ 1)),
            (rstrip_cons_safe _ _ (group_url_safe _ 2)),
            (rstrip_cons_safe _ _ (group_url_safe _ 3)).
    cbn [Inv.all_chars]. now rewrite !group_url_safe, IH.
Qed.

Lemma token_urlsafe_url_safe tok :
  Inv.all_chars Inv.url_safe_char (Secrets.token_urlsafe tok) = true.
Proof. apply b64_text_url_safe. Qed.

(** ** The state token *)

Lemma url_safe_not_colon c : Inv.url_safe_char c = true -> Ascii.eqb c ":" = false.
Proof.
  intros H. destruct (Ascii.eqb_spec c ":"%char) as [-> | ]; [discriminate H | reflexivity].
Qed.

Lemma split1_prefix (p rest : string) :
  Inv.all_chars Inv.url_safe_char p = true ->
  Py.split1 ":" (p +:+ ":" +:+ rest) = [p; rest].
Proof.
  induction p as [|c p IH]; intros H; [reflexivity|].
  simpl in H. apply andb_true_iff in H as [Hc Hp].
  rewrite append_cons. simpl.
  rewrite (url_safe_not_colon c Hc), (IH Hp). reflexivity.
Qed.

Lemma str_contains_sep (p rest : string) :
  Py.str_contains ":" (p +:+ ":" +:+ rest) = true.
Proof.
  induction p as [|c p IH].
  - destruct rest; reflexivity.
  - rewrite append_cons. simpl. rewrite IH. apply orb_true_r.
Qed.

Lemma redirect_path_generate_state tok redirect_path :
  App.redirect_path (SocialAuth._generate_state tok redirect_path) = Py.Ok redirect_path.
Proof.
  unfold App.redirect_path, SocialAuth._generate_state.
  rewrite str_contains_sep, split1_prefix by apply token_urlsafe_url_safe.
  reflexivity.
Qed.

(** ** The calls of a computation *)

Lemma bind_step {A B : Type} (m : M A) (k : A -> M B) w a w1 :
  m w = (Ok a, w1) -> bind m k w = k a w1.
Proof. unfold bind. now intros ->. Qed.

Lemma bind_fail {A B : Type} (m : M A) (k : A -> M B) w e w1 :
  m w = (Raise e, w1) -> bind m k w = (Raise e, w1).
Proof. unfold bind. now intros ->. Qed.

(** ** Computations that leave the store alone *)

Lemma keeps_ret {A : Type} (a : A) : Inv.keeps_db (ret a).
Proof. intros w. reflexivity. Qed.

Lemma keeps_raise {A : Type} (e : exn) : Inv.keeps_db (@raise A e).
Proof. intros w. reflexivity. Qed.

Lemma keeps_lift {A : Type} (r : result A) : Inv.keeps_db (lift r).
Proof. intros w. reflexivity. Qed.

Lemma keeps_send http rq : Inv.keeps_db (send http rq).
Proof. intros w. unfold send. destruct (http (http_log w) rq); reflexivity. Qed.

Lemma keeps_bind {A B : Type} (m : M A) (k : A -> M B) :
  Inv.keeps_db m -> (forall a, Inv.keeps_db (k a)) -> Inv.keeps_db (bind m k).
Proof.
  intros Hm Hk w. unfold bind. specialize (Hm w).
  destruct (m w) as [[a | e] w1]; cbn in Hm.
  - rewrite Hk. exact Hm.
  - exact Hm.
Qed.

Create HintDb keeps.
#[export] Hint Resolve keeps_ret keeps_raise keeps_lift keeps_send : keeps.

Ltac keeps :=
  repeat first
    [ apply keeps_bind; [| intros ?]
    | solve [auto with keeps]
    | match goal with
      | |- Inv.keeps_db (if ?b then _ else _) => destruct b
      | |- Inv.keeps_db (match ?x with _ => _ end) => destruct x
      end ].

Lemma keeps_exchange self e provider code code_verifier :
  Inv.keeps_db (SocialAuth._exchange_code_for_token self e provider code code_verifier).
Proof. unfold SocialAuth._exchange_code_for_token. keeps. Qed.

Lemma keeps_user_info self e provider access_token :
  Inv.keeps_db (SocialAuth._get_user_info self e provider access_token).
Proof. unfold SocialAuth._get_user_info. keeps. Qed.

(** ** The session that never opens *)

Lemma with_session_raises {A : Type} (body : result A) :
  Database.with_session body = Raise TypeError.
Proof. reflexivity. Qed.

Lemma read_raises {A : Type} (f : Database.t -> result A) w :
  f (db w) = Raise TypeError -> read f w = (Raise TypeError, w).
Proof. unfold read. now intros ->. Qed.

Lemma commit_raises {A : Type} (f : Database.t -> result (A * Database.t)) w :
  f (db w) = Raise TypeError -> commit f w = (Raise TypeError, w).
Proof. unfold commit. now intros ->. Qed.

(** X7.  Every method of Database that opens an ORM session raises
    TypeError, for every argument and on every store: none of them
    reads or writes a row. *)
Theorem every_storage_call_raises (now : Z) (d : Database.t) :
  (forall user, Database.create_user now user d = Raise TypeError)
  /\ (forall user_id, Database.get_user user_id d = Raise TypeError)
  /\ (forall external_id,
        Database.get_user_by_external_id external_id d = Raise TypeError)
  /\ (forall username, Database.get_user_by_username username d = Raise TypeError)
  /\ (forall user, Database.update_user now user d = Raise TypeError)
  /\ (forall session_obj, Database.create_session now session_obj d = Raise TypeError)
  /\ (forall session_id, Database.get_session session_id d = Raise TypeError)
  /\ (forall session_id, Database.delete_session session_id d = Raise TypeError)
  /\ Database.cleanup_expired_sessions now d = Raise TypeError
  /\ (forall state code_verifier provider,
        Database.store_oauth_state now state code_verifier provider d
        = Raise TypeError)
  /\ (forall state, Database.get_oauth_state now state d = Raise TypeError)
  /\ (forall state, Database.delete_oauth_state state d = Raise TypeError)
  /\ Database.cleanup_expired_oauth_states now d = Raise TypeError.
Proof. repeat split; intros; apply with_session_raises. Qed.

(** ** Authorization requests *)

Lemma get_auth_url_raises self e tok_verifier tok_state provider redirect_path w
    config creds cid :
  assoc provider SocialAuth.PROVIDERS = Some config ->
  SocialAuth.lookup (SocialAuth.credentials self) provider = Ok creds ->
  SocialAuth.client_id creds = Some cid ->
  cid <> EmptyString ->
  SocialAuth.get_auth_url self e tok_verifier tok_state provider redirect_path w
  = (Raise TypeError, w).
Proof.
  intros Hconfig Hcreds Hcid Hne.
  unfold SocialAuth.get_auth_url. rewrite Hconfig.
  rewrite (bind_step _ _ w creds w) by (unfold lift; now rewrite Hcreds).
  rewrite Hcid. destruct cid as [|c cid]; [congruence|].
  apply bind_fail, commit_raises. reflexivity.
Qed.

(** C4.  For a known provider with a client id, get_auth_url raises
    TypeError when it stores the state, before it builds the URL: it
    returns no authorization URL and stores no verifier, and the store
    and the request log are as they were. *)
Theorem get_auth_url_raises_before_it_builds_the_url
    (self : SocialAuth.t) (e : SocialAuth.env) (tok_verifier tok_state : list byte)
    (provider redirect_path : string) (w : World.t)
    (config : SocialAuth.provider_config) (creds : SocialAuth.creds) (cid : string) :
  assoc provider SocialAuth.PROVIDERS = Some config ->
  SocialAuth.lookup (SocialAuth.credentials self) provider = Ok creds ->
  SocialAuth.client_id creds = Some cid ->
  cid <> EmptyString ->
  Database.store_oauth_state (SocialAuth.now e)
    (SocialAuth._generate_state tok_state redirect_path)
    (SocialAuth._generate_code_verifier tok_verifier) provider (db w)
  = Raise TypeError
  /\ SocialAuth.get_auth_url self e tok_verifier tok_state provider redirect_path w
     = (Raise TypeError, w)
  /\ forall url w',
       SocialAuth.get_auth_url self e tok_verifier tok_state provider redirect_path w
       <> (Ok url, w').
Proof.
  intros Hconfig Hcreds Hcid Hne.
  pose proof (get_auth_url_raises self e tok_verifier tok_state provider redirect_path w
                config creds cid Hconfig Hcreds Hcid Hne) as Hrun.
  split; [apply with_session_raises|]. split; [exact Hrun|].
  intros url w'. rewrite Hrun. discriminate.
Qed.

(** C5.  The state that _generate_state makes from its random bytes and a
    redirect path is the URL-safe text of token_urlsafe, a colon and the
    redirect path; splitting it on its first colon and taking the
    remainder, as the callback route does, gives back exactly the
    redirect path. *)
Theorem redirect_path_round_trips_through_state
    (tok : list byte) (redirect_path : string) :
  let random := Secrets.token_urlsafe tok in
  let state := SocialAuth._generate_state tok redirect_path in
  state = random +:+ ":" +:+ redirect_path
  /\ Inv.all_chars Inv.url_safe_char random = true
  /\ split1 ":" state = [random; redirect_path]
  /\ App.redirect_path state = Ok redirect_path.
Proof.
  cbn zeta. split; [reflexivity|].
  split; [apply token_urlsafe_url_safe|].
  split; [|apply redirect_path_generate_state].
  unfold SocialAuth._generate_state. apply split1_prefix, token_urlsafe_url_safe.
Qed.

(** ** Callbacks *)

Lemma handle_callback_raises self e tok_user tok_session provider code state w :
  SocialAuth.handle_callback self e tok_user tok_session provider code state w
  = (Raise TypeError, w).
Proof.
  unfold SocialAuth.handle_callback. apply bind_fail, read_raises. reflexivity.
Qed.

(** C1.  On a store that holds an unexpired state of the provider, the
    lookup of that state raises TypeError, and so does a callback that
    presents it, and so does a second callback after the first: the store
    and the request log are as they were, the state is still in its
    table, and neither callback succeeds or fails with the invalid-state
    error. *)
Theorem state_lookup_raises_in_every_callback
    (self : SocialAuth.t) (e e' : SocialAuth.env)
    (tok_user tok_session tok_user' tok_session' : list byte)
    (provider code code' state : string) (w : World.t) (row : OAuthState.t) :
  Database.oauth_states (db w) !! state = Some row ->
  OAuthState.provider row = provider ->
  OAuthState.is_expired (SocialAuth.now e) row = false ->
  Database.get_oauth_state (SocialAuth.now e) state (db w) = Raise TypeError
  /\ exists w1,
       SocialAuth.handle_callback self e tok_user tok_session provider code state w
       = (Raise TypeError, w1)
       /\ SocialAuth.handle_callback self e' tok_user' tok_session' provider code'
            state w1
          = (Raise TypeError, w1)
       /\ w1 = w.
Proof.
  intros _ _ _. split; [apply with_session_raises|].
  exists w. split; [apply handle_callback_raises|].
  split; [apply handle_callback_raises | reflexivity].
Qed.

(** C7.  On a store that holds an unexpired state recorded for another
    provider than the one of the callback, the callback raises TypeError
    at the lookup of the state and never reaches the comparison of the
    providers: the error is not the provider mismatch, and store and
    request log are as they were. *)
Theorem provider_mismatch_is_never_reached
    (self : SocialAuth.t) (e : SocialAuth.env) (tok_user tok_session : list byte)
    (provider code state : string) (w : World.t) (row : OAuthState.t) :
  Database.oauth_states (db w) !! state = Some row ->
  OAuthState.is_expired (SocialAuth.now e) row = false ->
  provider <> OAuthState.provider row ->
  SocialAuth.handle_callback self e tok_user tok_session provider code state w
  = (Raise TypeError, w)
  /\ fst (SocialAuth.handle_callback self e tok_user tok_session provider code state w)
     <> Raise (SocialAuth.provider_mismatch provider (OAuthState.provider row)).
Proof.
  intros _ _ _. rewrite handle_callback_raises. split; [reflexivity|]. discriminate.
Qed.

Lemma keeps_read {A : Type} (f : Database.t -> result A) : Inv.keeps_db (read f).
Proof. intros w. reflexivity. Qed.

(** C9.  Every callback ends in an error and leaves users, sessions,
    states and the request log as they were; and the token exchange and
    the profile fetch, whatever they return or raise, leave the store as
    it was. *)
Theorem failed_callback_changes_no_store
    (self : SocialAuth.t) (e : SocialAuth.env) (tok_user tok_session : list byte)
    (provider code state : string) (w : World.t)
    (r : result (User.t * Session.t)) (w' : World.t) :
  SocialAuth.handle_callback self e tok_user tok_session provider code state w
    = (r, w') ->
  (exists ex, r = Raise ex)
  /\ Database.users (db w') = Database.users (db w)
  /\ Database.sessions (db w') = Database.sessions (db w)
  /\ Database.oauth_states (db w') = Database.oauth_states (db w)
  /\ http_log w' = http_log w
  /\ (forall code_verifier,
        Inv.keeps_db (SocialAuth._exchange_code_for_token self e provider code
                        code_verifier))
  /\ (forall access_token,
        Inv.keeps_db (SocialAuth._get_user_info self e provider access_token)).
Proof.
  rewrite handle_callback_raises. intros H. injection H as <- <-.
  split; [eauto|]. repeat (split; [reflexivity|]).
  split; intros; [apply keeps_exchange | apply keeps_user_info].
Qed.

(** ** Reconciliation *)

Lemma create_or_update_raises e tok provider user_info token_data w n external_id :
  SocialAuth._normalize_user_data provider user_info = Ok n ->
  SocialAuth.external_id_of provider n = Ok external_id ->
  SocialAuth._create_or_update_user e tok provider user_info token_data w
  = (Raise TypeError, w).
Proof.
  intros Hn Hid. unfold SocialAuth._create_or_update_user.
  rewrite (bind_step _ _ w n w) by (unfold lift; now rewrite Hn).
  rewrite (bind_step _ _ w external_id w) by (unfold lift; now rewrite Hid).
  apply bind_fail, read_raises. reflexivity.
Qed.

(** C2.  A first login, for an external id that no stored user has,
    raises TypeError at the lookup of the user, and so does a second one
    for the same external id after it: both run to their end, and no user
    with that external id is stored, where exactly one is expected. *)
Theorem first_login_stores_no_user
    (e e' : SocialAuth.env) (tok_user tok_user' : list byte) (provider : string)
    (user_info token_data : pyval) (w : World.t)
    (n : SocialAuth.normalized) (external_id : string) :
  SocialAuth._normalize_user_data provider user_info = Ok n ->
  SocialAuth.external_id_of provider n = Ok external_id ->
  Inv.rows_with external_id (db w) = [] ->
  exists w',
    SocialAuth._create_or_update_user e tok_user provider user_info token_data w
    = (Raise TypeError, w')
    /\ SocialAuth._create_or_update_user e' tok_user' provider user_info token_data w'
       = (Raise TypeError, w')
    /\ Inv.rows_with external_id (db w') = [].
Proof.
  intros Hn Hid Hnone. exists w.
  split; [|split; [|exact Hnone]].
  - exact (create_or_update_raises e tok_user provider user_info token_data w n
             external_id Hn Hid).
  - exact (create_or_update_raises e' tok_user' provider user_info token_data w n
             external_id Hn Hid).
Qed.

(** C6.  A login for an external id that a stored user has raises
    TypeError at the lookup of that user: no user is returned, and the
    stored row keeps every field, the ones a login is to overwrite
    included. *)
Theorem repeated_login_updates_nothing
    (e : SocialAuth.env) (tok_user : list byte) (provider : string)
    (user_info token_data : pyval) (w : World.t)
    (n : SocialAuth.normalized) (external_id : string) (existing : User.t) :
  SocialAuth._normalize_user_data provider user_info = Ok n ->
  SocialAuth.external_id_of provider n = Ok external_id ->
  Inv.rows_with external_id (db w) = [existing] ->
  exists w',
    SocialAuth._create_or_update_user e tok_user provider user_info token_data w
    = (Raise TypeError, w')
    /\ Inv.rows_with external_id (db w') = [existing]
    /\ Database.users (db w') = Database.users (db w).
Proof.
  intros Hn Hid Hrow. exists w. split; [|split; [exact Hrow | reflexivity]].
  exact (create_or_update_raises e tok_user provider user_info token_data w n
           external_id Hn Hid).
Qed.

(** C10.  With a token response that has an access token and no
    expires_in entry, reconciliation raises TypeError at the lookup of
    the user, on every store, with or without a user of that external
    id: no token expiry is computed or stored, neither on the create nor
    on the update path. *)
Theorem token_expiry_is_never_stored
    (e : SocialAuth.env) (tok_user : list byte) (provider : string)
    (user_info token_data access_token : pyval)
    (n : SocialAuth.normalized) (external_id : string) :
  SocialAuth._normalize_user_data provider user_info = Ok n ->
  SocialAuth.external_id_of provider n = Ok external_id ->
  getitem token_data "access_token" = Ok access_token ->
  contains "expires_in" token_data = Ok false ->
  forall w,
    SocialAuth._create_or_update_user e tok_user provider user_info token_data w
    = (Raise TypeError, w).
Proof.
  intros Hn Hid _ _ w.
  exact (create_or_update_raises e tok_user provider user_info token_data w n
           external_id Hn Hid).
Qed.

(** ** Sessions *)

(** C3.  On a store that holds a session whose expires_at is at or before
    the current instant, get_user_from_session raises TypeError at the
    lookup of the session, for that session id and for every other one:
    it returns neither a user nor None. *)
Theorem session_resolution_raises
    (now : Z) (session_id : string) (d : Database.t) (session : Session.t) :
  Database.sessions d !! session_id = Some session ->
  Session.expires_at session <= now ->
  Database.get_session session_id d = Raise TypeError
  /\ SocialAuth.get_user_from_session now session_id d = Raise TypeError
  /\ (forall other, SocialAuth.get_user_from_session now other d = Raise TypeError).
Proof. intros _ _. repeat split. Qed.

(** ** The time to live of a state *)

(** C8.  store_oauth_state raises TypeError and stores no row; and on a
    store that holds a state whose expires_at has passed, get_oauth_state
    raises TypeError where "not found" is expected. *)
Theorem expired_state_lookup_raises
    (created now : Z) (state code_verifier provider : string) (d : Database.t)
    (row : OAuthState.t) :
  Database.oauth_states d !! state = Some row ->
  OAuthState.expires_at row < now ->
  Database.store_oauth_state created state code_verifier provider d = Raise TypeError
  /\ Database.get_oauth_state now state d = Raise TypeError
  /\ Database.get_oauth_state now state d <> Ok None.
Proof.
  intros _ _. split; [apply with_session_raises|].
  assert (H : Database.get_oauth_state now state d = Raise TypeError)
    by apply with_session_raises.
  rewrite H. split; [reflexivity | discriminate].
Qed.

(** ** The SHA-256 of the embedding *)

(** The digest of "abc" (FIPS 180-4, appendix B.1). *)
Lemma sha256_abc :
  map Byte.to_N (Sha256.sha256 (list_byte_of_string "abc"))
  = [ 0xba; 0x78; 0x16; 0xbf; 0x8f; 0x01; 0xcf; 0xea; 0x41; 0x41; 0x40; 0xde;
      0x5d; 0xae; 0x22; 0x23; 0xb0; 0x03; 0x61; 0xa3; 0x96; 0x17; 0x7a; 0x9c;
      0xb4; 0x10; 0xff; 0x61; 0xf2; 0x00; 0x15; 0xad ]%N.
Proof. vm_compute. reflexivity. Qed.

(** ** Lengths of the generated texts *)

Lemma b64_text_length bs :
  String.length (Py.rstrip "=" (Base64.urlsafe_b64encode bs))
  = ((4 * length bs + 2) / 3)%nat.
Proof.
  induction bs as [| a | a b | a b c r IH] using list_ind3;
    cbn [Base64.urlsafe_b64encode].
  - reflexivity.
  - rewrite (rstrip_cons_safe _ _ (group_url_safe _ 0)),
            (rstrip_cons_safe _ _ (group_url_safe _ 1)).
    reflexivity.
  - rewrite (rstrip_cons_safe _ _ (group_url_safe _ 0)),
            (rstrip_cons_safe _ _ (group_url_safe _ 1)),
            (rstrip_cons_safe _ _ (group_url_safe _ 2)).
    reflexivity.
  - rewrite (rstrip_cons_safe _ _ (group_url_safe _ 0)),
            (rstrip_cons_safe _ _ (group_url_safe _ 1)),
            (rstrip_cons_safe _ _ (group_url_safe _ 2)),
            (rstrip_cons_safe _ _ (group_url_safe _ 3)).
    cbn [String.length length]. rewrite IH.
    replace (4 * S (S (S (length r))) + 2)%nat with (4 * length r + 2 + 4 * 3)%nat by lia.
    rewrite Nat.div_add by lia. lia.
Qed.

Lemma round_length st kw : length (Sha256.round st kw) = length st.
Proof.
  unfold Sha256.round.
  destruct st as [|a [|b [|c [|d [|e [|f [|g [|h [|i st]]]]]]]]]; reflexivity.
Qed.

Lemma rounds_length kws : forall st, length (fold_left Sha256.round kws st) = length st.
Proof.
  induction kws as [|kw kws IH]; intros st; cbn; [reflexivity|].
  now rewrite IH, round_length.
Qed.

Lemma compress_length h block : length (Sha256.compress h block) = length h.
Proof.
  unfold Sha256.compress. rewrite length_map, length_combine, rounds_length. lia.
Qed.

Lemma compress_all_length blocks : forall h,
  length (fold_left Sha256.compress blocks h) = length h.
Proof.
  induction blocks as [|b blocks IH]; intros h; cbn; [reflexivity|].
  now rewrite IH, compress_length.
Qed.

Lemma be_bytes_length n x : length (Sha256.be_bytes n x) = n.
Proof.
  induction n as [|n IH]; cbn; [reflexivity|].
  destruct (Byte.of_N _); cbn; now rewrite IH.
Qed.

Lemma sha256_length msg : length (Sha256.sha256 msg) = 32%nat.
Proof.
  unfold Sha256.sha256.
  pose proof (compress_all_length
                (Sha256.chunks 64 (length (Sha256.pad msg) / 64) (Sha256.pad msg))
                Sha256.H0) as Hlen.
  change (length Sha256.H0) with 8%nat in Hlen.
  destruct (fold_left Sha256.compress _ Sha256.H0)
    as [|a [|b [|c [|d [|e [|f [|g [|h [|i st]]]]]]]]]; try discriminate Hlen.
  cbn [map concat]. rewrite !length_app, !be_bytes_length. reflexivity.
Qed.

(** X1.  From 32 random bytes _generate_code_verifier returns 43 characters, all
    of the URL-safe Base64 alphabet (letters, digits, '-' and '_'), with no
    padding. *)
Theorem code_verifier_shape (tok : list byte) :
  length tok = 32%nat ->
  String.length (SocialAuth._generate_code_verifier tok) = 43%nat
  /\ Inv.all_chars Inv.url_safe_char (SocialAuth._generate_code_verifier tok) = true.
Proof.
  intros Hlen. unfold SocialAuth._generate_code_verifier. split.
  - rewrite b64_text_length, Hlen. reflexivity.
  - apply b64_text_url_safe.
Qed.

(** X2.  For every verifier _generate_code_challenge returns 43 characters, all
    of the URL-safe Base64 alphabet: the unpadded Base64 text of a 32-byte
    SHA-256 digest. *)
Theorem code_challenge_shape (verifier : string) :
  String.length (SocialAuth._generate_code_challenge verifier) = 43%nat
  /\ Inv.all_chars Inv.url_safe_char (SocialAuth._generate_code_challenge verifier) = true.
Proof.
  unfold SocialAuth._generate_code_challenge. split.
  - rewrite b64_text_length, sha256_length. reflexivity.
  - apply b64_text_url_safe.
Qed.

Lemma append_length (a b : string) :
  String.length (a +:+ b) = (String.length a + String.length b)%nat.
Proof.
  induction a as [|x a IH]; [reflexivity|].
  rewrite append_cons. cbn. now rewrite IH.
Qed.

(** X3.  From 16 random bytes a user id is 'user_' followed by 22 URL-safe
    characters; from 32 random bytes a session id is 43 URL-safe characters. *)
Theorem generated_ids_shape (tok_user tok_session : list byte) :
  length tok_user = 16%nat ->
  length tok_session = 32%nat ->
  (exists random,
     SocialAuth._generate_user_id tok_user = "user_" +:+ random
     /\ String.length random = 22%nat
     /\ Inv.all_chars Inv.url_safe_char random = true)
  /\ String.length (SocialAuth._generate_session_id tok_session) = 43%nat
  /\ Inv.all_chars Inv.url_safe_char (SocialAuth._generate_session_id tok_session) = true.
Proof.
  intros Hu Hs. split.
  - exists (Secrets.token_urlsafe tok_user). split; [reflexivity|]. split.
    + unfold Secrets.token_urlsafe. rewrite b64_text_length, Hu. reflexivity.
    + apply token_urlsafe_url_safe.
  - unfold SocialAuth._generate_session_id, Secrets.token_urlsafe. split.
    + rewrite b64_text_length, Hs. reflexivity.
    + apply b64_text_url_safe.
Qed.

(** ** The Base64 text determines the bytes *)

Lemma alphabet_NoDup : List.NoDup Base64.alphabet.
Proof.
  assert (H : bool_decide (NoDup Base64.alphabet) = true) by (vm_compute; reflexivity).
  apply bool_decide_eq_true in H. now apply NoDup_ListNoDup.
Qed.

Lemma sextet_inj n m :
  (n < 64)%N -> (m < 64)%N -> Base64.sextet n = Base64.sextet m -> n = m.
Proof.
  intros Hn Hm Heq. unfold Base64.sextet in Heq.
  apply N2Nat.inj.
  apply (proj1 (List.NoDup_nth Base64.alphabet "A"%char) alphabet_NoDup);
    [change (length Base64.alphabet) with 64%nat; lia
    |change (length Base64.alphabet) with 64%nat; lia
    |exact Heq].
Qed.

Lemma six_bits g i : (N.land (N.shiftr g (18 - 6 * i)) 63 < 64)%N.
Proof.
  change 63%N with (N.ones 6). rewrite N.land_ones.
  apply N.mod_lt. discriminate.
Qed.

Lemma group_inj g g' i :
  Base64.group g i = Base64.group g' i ->
  N.land (N.shiftr g (18 - 6 * i)) 63 = N.land (N.shiftr g' (18 - 6 * i)) 63.
Proof. unfold Base64.group. apply sextet_inj; apply six_bits. Qed.

Lemma bits_0 g : N.land (N.shiftr g (18 - 6 * 0)) 63 = ((g / 262144) mod 64)%N.
Proof. change 63%N with (N.ones 6). now rewrite N.land_ones, N.shiftr_div_pow2. Qed.
Lemma bits_1 g : N.land (N.shiftr g (18 - 6 * 1)) 63 = ((g / 4096) mod 64)%N.
Proof. change 63%N with (N.ones 6). now rewrite N.land_ones, N.shiftr_div_pow2. Qed.
Lemma bits_2 g : N.land (N.shiftr g (18 - 6 * 2)) 63 = ((g / 64) mod 64)%N.
Proof. change 63%N with (N.ones 6). now rewrite N.land_ones, N.shiftr_div_pow2. Qed.
Lemma bits_3 g : N.land (N.shiftr g (18 - 6 * 3)) 63 = (g mod 64)%N.
Proof.
  change 63%N with (N.ones 6). rewrite N.land_ones, N.shiftr_div_pow2.
  change (2 ^ (18 - 6 * 3))%N with 1%N. now rewrite N.div_1_r.
Qed.

Lemma byte_bound (b : byte) : (Byte.to_N b < 256)%N.
Proof. pose proof (Byte.to_N_bounded b). lia. Qed.

Lemma byte_inj (a b : byte) : Byte.to_N a = Byte.to_N b -> a = b.
Proof.
  intros H. pose proof (Byte.of_to_N a) as Ha. pose proof (Byte.of_to_N b) as Hb.
  rewrite H in Ha. congruence.
Qed.

Ltac euclid := zify; Z.to_euclidean_division_equations; lia.

Lemma one_byte_inj (a a' : byte) :
  let g := Base64.group24 a Byte.x00 Byte.x00 in
  let g' := Base64.group24 a' Byte.x00 Byte.x00 in
  Base64.group g 0 = Base64.group g' 0 ->
  Base64.group g 1 = Base64.group g' 1 ->
  a = a'.
Proof.
  intros g g' H0 H1. apply group_inj in H0, H1. rewrite !bits_0 in H0. rewrite !bits_1 in H1.
  apply byte_inj. subst g g'. unfold Base64.group24 in *.
  change (Byte.to_N Byte.x00) with 0%N in *.
  pose proof (byte_bound a). pose proof (byte_bound a'). euclid.
Qed.

Lemma sextets_recompose (g : N) :
  (g < 16777216)%N ->
  g = (((g / 262144) mod 64) * 262144 + ((g / 4096) mod 64) * 4096
       + ((g / 64) mod 64) * 64 + g mod 64)%N.
Proof.
  intros Hg.
  pose proof (N.div_mod g 64 ltac:(discriminate)) as H1.
  pose proof (N.div_mod (g / 64) 64 ltac:(discriminate)) as H2.
  pose proof (N.div_mod (g / 4096) 64 ltac:(discriminate)) as H3.
  rewrite (N.Div0.div_div g 64 64) in H2. change (64 * 64)%N with 4096%N in H2.
  replace (g / 4096 / 64)%N with (g / 262144)%N in H3
    by (rewrite N.Div0.div_div; reflexivity).
  assert (H4 : (g / 262144 < 64)%N) by (apply N.Div0.div_lt_upper_bound; exact Hg).
  rewrite (N.mod_small _ _ H4). lia.
Qed.

Lemma group24_bound a b c : (Base64.group24 a b c < 16777216)%N.
Proof.
  unfold Base64.group24.
  pose proof (byte_bound a). pose proof (byte_bound b). pose proof (byte_bound c). lia.
Qed.

Lemma group24_inj a b c a' b' c' :
  Base64.group24 a b c = Base64.group24 a' b' c' -> a = a' /\ b = b' /\ c = c'.
Proof.
  unfold Base64.group24. intros H.
  pose proof (byte_bound a). pose proof (byte_bound a').
  pose proof (byte_bound b). pose proof (byte_bound b').
  pose proof (byte_bound c). pose proof (byte_bound c').
  repeat split; apply byte_inj; lia.
Qed.

Lemma low_sextet_two a b : (Base64.group24 a b Byte.x00 mod 64 = 0)%N.
Proof.
  unfold Base64.group24. change (Byte.to_N Byte.x00) with 0%N.
  replace (Byte.to_N a * 65536 + Byte.to_N b * 256 + 0)%N
    with ((Byte.to_N a * 1024 + Byte.to_N b * 4) * 64)%N by lia.
  apply N.Div0.mod_mul.
Qed.

Lemma two_bytes_inj (a b a' b' : byte) :
  let g := Base64.group24 a b Byte.x00 in
  let g' := Base64.group24 a' b' Byte.x00 in
  Base64.group g 0 = Base64.group g' 0 ->
  Base64.group g 1 = Base64.group g' 1 ->
  Base64.group g 2 = Base64.group g' 2 ->
  a = a' /\ b = b'.
Proof.
  intros g g' H0 H1 H2. apply group_inj in H0, H1, H2.
  rewrite !bits_0 in H0. rewrite !bits_1 in H1. rewrite !bits_2 in H2.
  assert (Hg : g = g').
  { rewrite (sextets_recompose g (group24_bound _ _ _)),
            (sextets_recompose g' (group24_bound _ _ _)).
    subst g g'. rewrite !low_sextet_two. congruence. }
  apply group24_inj in Hg as (Ha & Hb & _). now split.
Qed.

Lemma three_bytes_inj (a b c a' b' c' : byte) :
  let g := Base64.group24 a b c in
  let g' := Base64.group24 a' b' c' in
  Base64.group g 0 = Base64.group g' 0 ->
  Base64.group g 1 = Base64.group g' 1 ->
  Base64.group g 2 = Base64.group g' 2 ->
  Base64.group g 3 = Base64.group g' 3 ->
  a = a' /\ b = b' /\ c = c'.
Proof.
  intros g g' H0 H1 H2 H3. apply group_inj in H0, H1, H2, H3.
  rewrite !bits_0 in H0. rewrite !bits_1 in H1. rewrite !bits_2 in H2.
  rewrite !bits_3 in H3.
  apply group24_inj. change (g = g').
  rewrite (sextets_recompose g (group24_bound _ _ _)),
          (sextets_recompose g' (group24_bound _ _ _)).
  congruence.
Qed.

Lemma text_cons_inj c s c' s' : String c s = String c' s' -> c = c' /\ s = s'.
Proof. intros H. now inversion H. Qed.

(** [rstrip "=" (urlsafe_b64encode bs)], four characters at a time. *)
Lemma text_nil : Py.rstrip "=" (Base64.urlsafe_b64encode []) = EmptyString.
Proof. reflexivity. Qed.

Lemma text_one a :
  Py.rstrip "=" (Base64.urlsafe_b64encode [a])
  = String (Base64.group (Base64.group24 a Byte.x00 Byte.x00) 0)
      (String (Base64.group (Base64.group24 a Byte.x00 Byte.x00) 1) EmptyString).
Proof.
  cbn [Base64.urlsafe_b64encode].
  now rewrite (rstrip_cons_safe _ _ (group_url_safe _ 0)),
              (rstrip_cons_safe _ _ (group_url_safe _ 1)).
Qed.

Lemma text_two a b :
  Py.rstrip "=" (Base64.urlsafe_b64encode [a; b])
  = String (Base64.group (Base64.group24 a b Byte.x00) 0)
      (String (Base64.group (Base64.group24 a b Byte.x00) 1)
         (String (Base64.group (Base64.group24 a b Byte.x00) 2) EmptyString)).
Proof.
  cbn [Base64.urlsafe_b64encode].
  now rewrite (rstrip_cons_safe _ _ (group_url_safe _ 0)),
              (rstrip_cons_safe _ _ (group_url_safe _ 1)),
              (rstrip_cons_safe _ _ (group_url_safe _ 2)).
Qed.

Lemma text_three a b c r :
  Py.rstrip "=" (Base64.urlsafe_b64encode (a :: b :: c :: r))
  = String (Base64.group (Base64.group24 a b c) 0)
      (String (Base64.group (Base64.group24 a b c) 1)
         (String (Base64.group (Base64.group24 a b c) 2)
            (String (Base64.group (Base64.group24 a b c) 3)
               (Py.rstrip "=" (Base64.urlsafe_b64encode r))))).
Proof.
  cbn [Base64.urlsafe_b64encode].
  now rewrite (rstrip_cons_safe _ _ (group_url_safe _ 0)),
              (rstrip_cons_safe _ _ (group_url_safe _ 1)),
              (rstrip_cons_safe _ _ (group_url_safe _ 2)),
              (rstrip_cons_safe _ _ (group_url_safe _ 3)).
Qed.

Lemma token_urlsafe_inj (tok tok' : list byte) :
  Secrets.token_urlsafe tok = Secrets.token_urlsafe tok' -> tok = tok'.
Proof.
  unfold Secrets.token_urlsafe. revert tok'.
  induction tok as [| a | a b | a b c r IH] using list_ind3;
    intros [|a' [|b' [|c' r']]];
    rewrite ?text_nil, ?text_one, ?text_two, ?text_three;
    intros H; try discriminate H; try reflexivity.
  - apply text_cons_inj in H as [H0 H]. apply text_cons_inj in H as [H1 _].
    now rewrite (one_byte_inj a a' H0 H1).
  - apply text_cons_inj in H as [H0 H]. apply text_cons_inj in H as [H1 H].
    apply text_cons_inj in H as [H2 _].
    destruct (two_bytes_inj a b a' b' H0 H1 H2) as [-> ->]. reflexivity.
  - apply text_cons_inj in H as [H0 H]. apply text_cons_inj in H as [H1 H].
    apply text_cons_inj in H as [H2 H]. apply text_cons_inj in H as [H3 H].
    destruct (three_bytes_inj a b c a' b' c' H0 H1 H2 H3) as (-> & -> & ->).
    now rewrite (IH r' H).
Qed.

(** ** Generated tokens determine their entropy *)

Lemma split1_state tok redirect_path :
  split1 ":" (SocialAuth._generate_state tok redirect_path)
  = [Secrets.token_urlsafe tok; redirect_path].
Proof.
  unfold SocialAuth._generate_state. apply split1_prefix.
  apply token_urlsafe_url_safe.
Qed.

Lemma append_inj_l (p a b : string) : p +:+ a = p +:+ b -> a = b.
Proof.
  induction p as [|c p IH]; [auto|].
  rewrite !append_cons. intros H. inversion H. auto.
Qed.

(** X14.  State tokens, session ids, user ids and code verifiers determine the
    random bytes they were made from, and a state token also determines its
    redirect path: two of them are equal only if their random bytes (and
    redirect paths) are equal. *)
Theorem generated_tokens_are_injective
    (tok tok' : list byte) (redirect_path redirect_path' : string) :
  (SocialAuth._generate_state tok redirect_path
   = SocialAuth._generate_state tok' redirect_path' ->
   tok = tok' /\ redirect_path = redirect_path')
  /\ (SocialAuth._generate_session_id tok = SocialAuth._generate_session_id tok' ->
      tok = tok')
  /\ (SocialAuth._generate_user_id tok = SocialAuth._generate_user_id tok' ->
      tok = tok')
  /\ (SocialAuth._generate_code_verifier tok = SocialAuth._generate_code_verifier tok' ->
      tok = tok').
Proof.
  split; [|split; [|split]].
  - intros H. apply (f_equal (split1 ":")) in H. rewrite !split1_state in H.
    inversion H as [[Hrandom Hpath]]. split; [|reflexivity].
    now apply token_urlsafe_inj.
  - apply token_urlsafe_inj.
  - unfold SocialAuth._generate_user_id. intros H.
    apply append_inj_l in H. now apply token_urlsafe_inj.
  - apply token_urlsafe_inj.
Qed.

(** ** Expertise tags *)

Lemma sorted_add_In x l t : In t (sorted_add x l) <-> t = x \/ In t l.
Proof.
  induction l as [|y l IH]; cbn.
  - intuition.
  - destruct (String.compare x y) eqn:Hc; cbn.
    + apply String.compare_eq_iff in Hc. subst y. intuition.
    + intuition.
    + rewrite IH. intuition.
Qed.

Lemma sorted_add_Sorted x l : Sorted Text.lt_string l -> Sorted Text.lt_string (sorted_add x l).
Proof.
  induction l as [|y l IH]; intros Hs; cbn.
  - repeat constructor.
  - destruct (String.compare x y) eqn:Hc.
    + exact Hs.
    + constructor; [exact Hs | constructor; exact Hc].
    + inversion Hs as [|? ? Hl Hhd]; subst.
      constructor; [now apply IH|].
      destruct l as [|z l]; cbn.
      * constructor. unfold Text.lt_string. rewrite String.compare_antisym, Hc. reflexivity.
      * inversion Hhd; subst.
        destruct (String.compare x z); constructor; auto.
        unfold Text.lt_string. rewrite String.compare_antisym, Hc. reflexivity.
Qed.

Lemma fold_keywords_Sorted text ks : forall acc,
  Sorted Text.lt_string acc ->
  Sorted Text.lt_string
    (fold_left (fun acc keyword =>
                  if str_contains keyword text then sorted_add keyword acc else acc)
               ks acc).
Proof.
  induction ks as [|k ks IH]; intros acc Hs; cbn; [exact Hs|].
  apply IH. destruct (str_contains k text); [now apply sorted_add_Sorted | exact Hs].
Qed.

Lemma fold_keywords_In text ks t : forall acc,
  In t (fold_left (fun acc keyword =>
                     if str_contains keyword text then sorted_add keyword acc else acc)
                  ks acc)
  <-> In t acc \/ (In t ks /\ str_contains t text = true).
Proof.
  induction ks as [|k ks IH]; intros acc; cbn; [intuition|].
  rewrite IH. destruct (str_contains k text) eqn:Hk.
  - rewrite sorted_add_In. intuition; subst; auto.
  - intuition; subst; congruence.
Qed.

Lemma add_keywords_Sorted text acc :
  Sorted Text.lt_string acc -> Sorted Text.lt_string (SocialAuth.add_keywords text acc).
Proof. apply fold_keywords_Sorted. Qed.

Lemma add_keywords_In text acc t :
  In t (SocialAuth.add_keywords text acc)
  <-> In t acc \/ (In t SocialAuth.keywords /\ str_contains t text = true).
Proof. apply fold_keywords_In. Qed.

Lemma scan_repo_Sorted acc repo acc' :
  Sorted Text.lt_string acc -> SocialAuth.scan_repo acc repo = Ok acc' ->
  Sorted Text.lt_string acc'.
Proof.
  intros Hs. unfold SocialAuth.scan_repo, rbind.
  destruct (get repo "language" PNone) as [language|]; [|discriminate].
  destruct (truthy language).
  - destruct (lower language) as [l|]; [|discriminate].
    destruct (get repo "description" PNone) as [description|]; [|discriminate].
    destruct (lower _) as [desc|]; [|discriminate].
    intros H; inversion H; subst. now apply add_keywords_Sorted, sorted_add_Sorted.
  - destruct (get repo "description" PNone) as [description|]; [|discriminate].
    destruct (lower _) as [desc|]; [|discriminate].
    intros H; inversion H; subst. now apply add_keywords_Sorted.
Qed.

Lemma scan_repos_Sorted repos : forall acc acc',
  Sorted Text.lt_string acc -> SocialAuth.scan_repos acc repos = Ok acc' ->
  Sorted Text.lt_string acc'.
Proof.
  induction repos as [|repo repos IH]; intros acc acc' Hs; cbn.
  - intros H; inversion H; now subst.
  - unfold rbind. destruct (SocialAuth.scan_repo acc repo) as [acc1|] eqn:H1;
      [|discriminate].
    apply IH. exact (scan_repo_Sorted _ _ _ Hs H1).
Qed.

(** X4.  Whenever _extract_expertise returns, its list is strictly increasing in
    string order: sorted and free of duplicates. *)
Theorem expertise_is_sorted (bio : pyval) (provider : string) (user_info : pyval)
    (tags : list string) :
  SocialAuth._extract_expertise bio provider user_info = Ok tags ->
  Sorted Text.lt_string tags.
Proof.
  unfold SocialAuth._extract_expertise, rbind.
  destruct (lower bio) as [bio_lower|]; [|discriminate].
  assert (H0 : Sorted Text.lt_string (SocialAuth.add_keywords bio_lower []))
    by (apply add_keywords_Sorted; constructor).
  destruct (String.eqb provider "github"); [|intros H; inversion H; now subst].
  destruct (contains "repos" user_info) as [[|]|]; try discriminate;
    [|intros H; inversion H; now subst].
  destruct (getitem user_info "repos") as [repos|]; [|discriminate].
  destruct (SocialAuth.first_repos repos) as [repos10|]; [|discriminate].
  apply scan_repos_Sorted. exact H0.
Qed.

(** X5.  For a bio of ASCII characters, and a provider other than GitHub
    or a profile without a repos entry, _extract_expertise succeeds and
    returns exactly the keywords of the fixed list that occur in the
    lower-cased bio. *)
Theorem expertise_from_bio (bio provider : string) (user_info : pyval) :
  Inv.all_chars Text.is_ascii bio = true ->
  String.eqb provider "github" = false \/ contains "repos" user_info = Ok false ->
  exists tags,
    SocialAuth._extract_expertise (PStr bio) provider user_info = Ok tags
    /\ forall tag,
         In tag tags
         <-> In tag SocialAuth.keywords /\ str_contains tag (str_lower bio) = true.
Proof.
  intros _ Hcase. unfold SocialAuth._extract_expertise, rbind, lower.
  exists (SocialAuth.add_keywords (str_lower bio) []). split.
  - destruct Hcase as [-> | ->]; [reflexivity|].
    destruct (String.eqb provider "github"); reflexivity.
  - intros tag. rewrite add_keywords_In. cbn. intuition.
Qed.

Lemma str_total (v : pyval) : exists s, str v = Ok s.
Proof. destruct v; cbn; eauto. Qed.

(** X6.  A GitHub profile that has id, login and avatar_url and whose bio
    entry is null is normalized with a null bio, and _extract_expertise
    raises AttributeError on that bio, for every provider. *)
Theorem null_bio_breaks_expertise
    (user_info id login avatar : pyval) :
  getitem user_info "id" = Ok id ->
  getitem user_info "login" = Ok login ->
  getitem user_info "avatar_url" = Ok avatar ->
  getitem user_info "bio" = Ok PNone ->
  exists n,
    SocialAuth._normalize_user_data "github" user_info = Ok n
    /\ SocialAuth.n_bio n = PNone
    /\ forall provider,
         SocialAuth._extract_expertise (SocialAuth.n_bio n) provider user_info
         = Raise AttributeError.
Proof.
  intros Hid Hlogin Havatar Hbio.
  destruct user_info as [| | | | |d]; try discriminate.
  unfold getitem in *.
  destruct (assoc "id" d) as [id0|] eqn:Eid; [|discriminate].
  destruct (assoc "login" d) as [login0|] eqn:Elogin; [|discriminate].
  destruct (assoc "avatar_url" d) as [avatar0|] eqn:Eavatar; [|discriminate].
  destruct (assoc "bio" d) as [bio0|] eqn:Ebio; [|discriminate].
  inversion Hid; inversion Hlogin; inversion Havatar; inversion Hbio; subst.
  destruct (str_total id) as [id_text Hstr].
  assert (Hn : exists name email,
             SocialAuth._normalize_user_data "github" (PDict d)
             = Ok (SocialAuth.mk_normalized (PStr id_text) login name avatar PNone email)).
  { unfold SocialAuth._normalize_user_data. cbn [String.eqb Ascii.eqb Bool.eqb].
    unfold getitem, get, SocialAuth.get_or_item, rbind, getitem, get.
    rewrite Eid, Hstr, Elogin, Eavatar, Ebio.
    destruct (assoc "name" d) as [name|]; [destruct (truthy name)|]; cbn;
      rewrite ?Elogin; eauto. }
  destruct Hn as (name & email & Hn).
  eexists. split; [exact Hn|]. split; reflexivity.
Qed.

(** ** The token request *)

Lemma credentials_known (self : SocialAuth.t) provider config :
  assoc provider SocialAuth.PROVIDERS = Some config ->
  exists creds, SocialAuth.lookup (SocialAuth.credentials self) provider = Ok creds.
Proof.
  unfold SocialAuth.lookup, SocialAuth.credentials, SocialAuth.PROVIDERS.
  cbn [assoc].
  destruct (String.eqb provider "twitter"); [eauto|].
  destruct (String.eqb provider "github"); [eauto|].
  destruct (String.eqb provider "discord"); [eauto|].
  destruct (String.eqb provider "linkedin"); [eauto | discriminate].
Qed.

(** X19.  For a provider outside the table _exchange_code_for_token raises
    KeyError and sends nothing.  For a provider of the table it sends
    exactly one request, a POST to the provider's token URL whose form
    carries the client id and secret, the code, the grant type, the
    redirect URI and the code verifier it was given, and it leaves the
    store as it was; it raises when no response arrives or the status is
    outside 200..299, and otherwise returns the JSON body. *)
Theorem token_exchange_sends_one_request
    (self : SocialAuth.t) (e : SocialAuth.env) (provider code code_verifier : string)
    (w : World.t) :
  (assoc provider SocialAuth.PROVIDERS = None ->
   SocialAuth._exchange_code_for_token self e provider code code_verifier w
   = (Raise (KeyError provider), w))
  /\ (forall config,
        assoc provider SocialAuth.PROVIDERS = Some config ->
        exists creds,
          SocialAuth.lookup (SocialAuth.credentials self) provider = Ok creds
          /\ let rq :=
               Http.Post (SocialAuth.token_url config)
                 [ ("client_id", SocialAuth.opt_str (SocialAuth.client_id creds));
                   ("client_secret",
                    SocialAuth.opt_str (SocialAuth.client_secret creds));
                   ("code", PStr code);
                   ("grant_type", PStr "authorization_code");
                   ("redirect_uri", PStr (SocialAuth.redirect_uri self provider));
                   ("code_verifier", PStr code_verifier) ]
                 [("Accept", "application/json")] in
             snd (SocialAuth._exchange_code_for_token self e provider code
                    code_verifier w)
             = World.mk (db w) (http_log w ++ [rq])
             /\ (SocialAuth.http e (http_log w) rq = Http.Failed ->
                 fst (SocialAuth._exchange_code_for_token self e provider code
                        code_verifier w)
                 = Raise TransportError)
             /\ (forall r,
                   SocialAuth.http e (http_log w) rq = Http.Responded r ->
                   fst (SocialAuth._exchange_code_for_token self e provider code
                          code_verifier w)
                   = if (200 <=? Http.status_code r) && (Http.status_code r <=? 299)
                     then Http.json r
                     else Raise (HTTPStatusError (Http.status_code r)))).
Proof.
  split.
  - intros Hnone. unfold SocialAuth._exchange_code_for_token.
    unfold bind at 1, lift, SocialAuth.lookup. now rewrite Hnone.
  - intros config Hconfig.
    destruct (credentials_known self _ _ Hconfig) as [creds Hcreds].
    exists creds. split; [exact Hcreds|]. cbn zeta.
    set (rq := Http.Post _ _ _).
    assert (Hrun : SocialAuth._exchange_code_for_token self e provider code
                     code_verifier w
                   = match SocialAuth.http e (http_log w) rq with
                     | Http.Failed =>
                         (Raise TransportError, World.mk (db w) (http_log w ++ [rq]))
                     | Http.Responded r =>
                         (rbind (Http.raise_for_status r) (fun _ => Http.json r),
                          World.mk (db w) (http_log w ++ [rq]))
                     end).
    { unfold SocialAuth._exchange_code_for_token.
      unfold bind at 1, lift. unfold SocialAuth.lookup at 1. rewrite Hconfig.
      unfold bind at 1, lift. rewrite Hcreds.
      unfold bind at 1, send. fold rq.
      destruct (SocialAuth.http e (http_log w) rq) as [|response]; [reflexivity|].
      unfold bind, lift, rbind.
      destruct (Http.raise_for_status response) as [[]|ex]; [|reflexivity].
      destruct (Http.json response); reflexivity. }
    rewrite Hrun.
    destruct (SocialAuth.http e (http_log w) rq) as [|response].
    + split; [reflexivity|]. split; [reflexivity | discriminate].
    + split; [reflexivity|]. split; [discriminate|].
      intros r Hr. injection Hr as <-. cbn [fst].
      unfold Http.raise_for_status, rbind.
      destruct ((200 <=? Http.status_code response)
                && (Http.status_code response <=? 299)); reflexivity.
Qed.

(** ** The profile fetch for GitHub *)

(** X20.  For GitHub, once the profile request has succeeded with a JSON body, a
    repository request answered with any status other than 200 leaves the
    profile as fetched and raises nothing; answered with 200 and a JSON body
    it adds that body under 'repos'; a repository request that gets no
    response makes the whole fetch raise. Both requests are logged in every
    case. *)
Theorem repos_fetch_failure_is_tolerated
    (self : SocialAuth.t) (e : SocialAuth.env) (token : string) (w : World.t)
    (r1 : Http.response) (user_data : pyval) :
  let headers := SocialAuth.bearer_headers token in
  let profile_request := Http.Get "https://api.github.com/user" headers None in
  let repos_request :=
    Http.Get "https://api.github.com/user/repos" headers
      (Some [("sort", PStr "updated"); ("per_page", PInt 10)]) in
  let w' := World.mk (db w) (http_log w ++ [profile_request; repos_request]) in
  SocialAuth.http e (http_log w) profile_request = Http.Responded r1 ->
  Http.raise_for_status r1 = Ok tt ->
  Http.json r1 = Ok user_data ->
  (forall r2,
     SocialAuth.http e (http_log w ++ [profile_request]) repos_request
       = Http.Responded r2 ->
     Http.status_code r2 <> 200 ->
     SocialAuth._get_user_info self e "github" (PStr token) w = (Ok user_data, w'))
  /\ (forall r2 repos d,
        SocialAuth.http e (http_log w ++ [profile_request]) repos_request
          = Http.Responded r2 ->
        Http.status_code r2 = 200 ->
        Http.body r2 = Some repos ->
        user_data = PDict d ->
        SocialAuth._get_user_info self e "github" (PStr token) w
        = (Ok (PDict (assoc_set "repos" repos d)), w'))
  /\ (SocialAuth.http e (http_log w ++ [profile_request]) repos_request = Http.Failed ->
      SocialAuth._get_user_info self e "github" (PStr token) w
      = (Raise TransportError, w')).
Proof.
  intros headers profile_request repos_request w' H1 Hstatus Hjson.
  assert (Hrun : SocialAuth._get_user_info self e "github" (PStr token) w
                 = match SocialAuth.http e (http_log w ++ [profile_request])
                           repos_request with
                   | Http.Failed => (Raise TransportError, w')
                   | Http.Responded r2 =>
                       if Http.status_code r2 =? 200
                       then (rbind (Http.json r2) (fun repos =>
                               SocialAuth.setitem user_data "repos" repos), w')
                       else (Ok user_data, w')
                   end).
  { unfold SocialAuth._get_user_info.
    unfold bind at 1, lift. cbn [SocialAuth.lookup assoc SocialAuth.PROVIDERS String.eqb
                                  Ascii.eqb Bool.eqb].
    change (SocialAuth.lookup SocialAuth.PROVIDERS "github")
      with (Ok (A := SocialAuth.provider_config)
              (SocialAuth.mk_config "https://github.com/login/oauth/authorize"
                 "https://github.com/login/oauth/access_token"
                 "https://api.github.com/user"
                 (Some "https://api.github.com/user/repos")
                 "read:user user:email" None)).
    cbn beta iota. unfold bind at 1, lift. cbn [str].
    change (String.eqb "github" "twitter") with false.
    change (String.eqb "github" "github") with true.
    cbn beta iota. cbn [SocialAuth.user_info_url SocialAuth.repos_url].
    unfold bind at 1, send. cbn [http_log db].
    fold headers. fold profile_request. rewrite H1.
    unfold bind at 1, lift. rewrite Hstatus.
    unfold bind at 1, lift. rewrite Hjson.
    unfold bind at 1, lift.
    unfold bind at 1, lift.
    unfold bind at 1, send. cbn [http_log db].
    fold repos_request.
    replace (World.mk (db w) ((http_log w ++ [profile_request]) ++ [repos_request]))
      with w' by (unfold w'; now rewrite <- app_assoc).
    destruct (SocialAuth.http e (http_log w ++ [profile_request]) repos_request)
      as [|r2]; [reflexivity|].
    destruct (Http.status_code r2 =? 200); [|reflexivity].
    unfold bind, lift. destruct (Http.json r2); reflexivity. }
  rewrite Hrun. split; [|split].
  - intros r2 -> Hne. destruct (Z.eqb_spec (Http.status_code r2) 200);
      [contradiction | reflexivity].
  - intros r2 repos d -> H200 Hbody ->. rewrite H200. cbn [Z.eqb Pos.eqb].
    unfold Http.json. rewrite Hbody. reflexivity.
  - intros ->. reflexivity.
Qed.

(** ** The routes *)

(** X21.  The /auth/{provider} route answers 400 with the message
    "Unknown provider: ..." for a provider outside the table and 400 with
    "Missing ..._CLIENT_ID in environment" for one whose client id is
    unset or empty; for a provider of the table with a client id it lets
    TypeError through; it never redirects, and in every case the store
    and the request log are as they were. *)
Theorem auth_provider_replies
    (self : SocialAuth.t) (e : SocialAuth.env) (tok_verifier tok_state : list byte)
    (provider redirect : string) (w : World.t) :
  (assoc provider SocialAuth.PROVIDERS = None ->
   Routes.auth_provider self e tok_verifier tok_state provider redirect w
   = (Routes.HTTPException 400 ("Unknown provider: " +:+ provider), w))
  /\ (forall creds,
        assoc provider SocialAuth.PROVIDERS <> None ->
        SocialAuth.lookup (SocialAuth.credentials self) provider = Ok creds ->
        SocialAuth.client_id creds = None
        \/ SocialAuth.client_id creds = Some EmptyString ->
        Routes.auth_provider self e tok_verifier tok_state provider redirect w
        = (Routes.HTTPException 400
             ("Missing " +:+ str_upper provider +:+ "_CLIENT_ID in environment"), w))
  /\ (forall creds cid,
        assoc provider SocialAuth.PROVIDERS <> None ->
        SocialAuth.lookup (SocialAuth.credentials self) provider = Ok creds ->
        SocialAuth.client_id creds = Some cid ->
        cid <> EmptyString ->
        Routes.auth_provider self e tok_verifier tok_state provider redirect w
        = (Routes.Unhandled TypeError, w))
  /\ (forall reply w',
        Routes.auth_provider self e tok_verifier tok_state provider redirect w
          = (reply, w') ->
        w' = w /\ forall url, reply <> Routes.RedirectResponse url).
Proof.
  assert (Hmissing : forall creds,
            assoc provider SocialAuth.PROVIDERS <> None ->
            SocialAuth.lookup (SocialAuth.credentials self) provider = Ok creds ->
            SocialAuth.client_id creds = None
            \/ SocialAuth.client_id creds = Some EmptyString ->
            Routes.auth_provider self e tok_verifier tok_state provider redirect w
            = (Routes.HTTPException 400
                 ("Missing " +:+ str_upper provider +:+ "_CLIENT_ID in environment"),
               w)).
  { intros creds Hknown Hcreds Hmiss.
    unfold Routes.auth_provider, SocialAuth.get_auth_url.
    destruct (assoc provider SocialAuth.PROVIDERS); [|contradiction].
    unfold bind at 1, lift. rewrite Hcreds.
    destruct Hmiss as [-> | ->]; reflexivity. }
  assert (Hraises : forall creds cid,
            assoc provider SocialAuth.PROVIDERS <> None ->
            SocialAuth.lookup (SocialAuth.credentials self) provider = Ok creds ->
            SocialAuth.client_id creds = Some cid ->
            cid <> EmptyString ->
            Routes.auth_provider self e tok_verifier tok_state provider redirect w
            = (Routes.Unhandled TypeError, w)).
  { intros creds cid Hknown Hcreds Hcid Hne. unfold Routes.auth_provider.
    destruct (assoc provider SocialAuth.PROVIDERS) as [config|] eqn:Hconfig;
      [|contradiction].
    now rewrite (get_auth_url_raises self e tok_verifier tok_state provider redirect w
                   config creds cid Hconfig Hcreds Hcid Hne). }
  split; [|split; [exact Hmissing | split; [exact Hraises|]]].
  - intros Hnone. unfold Routes.auth_provider, SocialAuth.get_auth_url.
    now rewrite Hnone.
  - intros reply w'.
    destruct (assoc provider SocialAuth.PROVIDERS) as [config|] eqn:Hconfig.
    + destruct (credentials_known self _ _ Hconfig) as [creds Hcreds].
      assert (Hknown : Some config <> None) by discriminate.
      destruct (SocialAuth.client_id creds) as [[|c cid]|] eqn:Hcid.
      * rewrite (Hmissing creds Hknown Hcreds (or_intror Hcid)).
        intros H; injection H as <- <-. split; [reflexivity | discriminate].
      * rewrite (Hraises creds (String c cid) Hknown Hcreds Hcid) by discriminate.
        intros H; injection H as <- <-. split; [reflexivity | discriminate].
      * rewrite (Hmissing creds Hknown Hcreds (or_introl Hcid)).
        intros H; injection H as <- <-. split; [reflexivity | discriminate].
    + unfold Routes.auth_provider, SocialAuth.get_auth_url. rewrite Hconfig.
      intros H; injection H as <- <-. split; [reflexivity | discriminate].
Qed.

(** X22.  get_current_user and the logout route return normally exactly
    for a missing or empty session cookie, with nobody and an unchanged
    store; for every other cookie both raise TypeError, whether or not
    the cookie names a stored session. *)
Theorem session_routes_raise_for_a_cookie
    (now : Z) (cookie : option string) (d : Database.t) :
  (cookie = None \/ cookie = Some EmptyString ->
   Routes.get_current_user now cookie d = Ok None
   /\ Routes.logout cookie d = Ok d)
  /\ (forall session_id,
        cookie = Some session_id ->
        session_id <> EmptyString ->
        Routes.get_current_user now cookie d = Raise TypeError
        /\ Routes.logout cookie d = Raise TypeError).
Proof.
  split.
  - intros [-> | ->]; split; reflexivity.
  - intros [|c session_id] -> Hne; [contradiction|]. split; reflexivity.
Qed.

(** ** The properties on the example deployment *)

Lemma state_lookup_witness :
  SocialAuth.handle_callback Example.self (Example.at_time 2000)
    (Example.tok 16 Byte.x03) (Example.tok 32 Byte.x04)
    "github" "code" Example.state0 Example.w_stored
  = (Raise TypeError, Example.w_stored)
  /\ SocialAuth.handle_callback Example.self (Example.at_time 3000)
       (Example.tok 16 Byte.x05) (Example.tok 32 Byte.x06)
       "github" "code" Example.state0 Example.w_stored
     = (Raise TypeError, Example.w_stored).
Proof.
  destruct (state_lookup_raises_in_every_callback
              Example.self (Example.at_time 2000) (Example.at_time 3000)
              (Example.tok 16 Byte.x03) (Example.tok 32 Byte.x04)
              (Example.tok 16 Byte.x05) (Example.tok 32 Byte.x06)
              "github" "code" "code" Example.state0 Example.w_stored
              Example.state_row)
    as (_ & w1 & Hfirst & Hsecond & ->);
    [vm_compute; reflexivity | reflexivity | vm_compute; reflexivity |].
  split; [exact Hfirst | exact Hsecond].
Defined.

Lemma first_login_witness :
  exists w',
    SocialAuth._create_or_update_user (Example.at_time 2000) (Example.tok 16 Byte.x03)
      "github" Example.github_profile Example.token_response Example.w0
    = (Raise TypeError, w')
    /\ SocialAuth._create_or_update_user (Example.at_time 2001)
         (Example.tok 16 Byte.x04) "github" Example.github_profile
         Example.token_response w'
       = (Raise TypeError, w')
    /\ Inv.rows_with "github:123456" (db w') = [].
Proof.
  eapply (first_login_stores_no_user (Example.at_time 2000) (Example.at_time 2001)
            (Example.tok 16 Byte.x03) (Example.tok 16 Byte.x04)
            "github" Example.github_profile Example.token_response Example.w0).
  - vm_compute. reflexivity.
  - reflexivity.
  - reflexivity.
Defined.

Lemma session_resolution_witness :
  SocialAuth.get_user_from_session 6000 "sid" (db Example.w_stored) = Raise TypeError
  /\ SocialAuth.get_user_from_session 5000 "sid" (db Example.w_stored)
     = Raise TypeError
  /\ SocialAuth.get_user_from_session 6000 "unknown" (db Example.w_stored)
     = Raise TypeError.
Proof.
  destruct (session_resolution_raises 6000 "sid" (db Example.w_stored)
              (Session.mk "sid" "user_octocat" (Some 0) 5000))
    as (_ & Hlate & Hother); [reflexivity | cbn; lia |].
  destruct (session_resolution_raises 5000 "sid" (db Example.w_stored)
              (Session.mk "sid" "user_octocat" (Some 0) 5000))
    as (_ & Hboundary & _); [reflexivity | cbn; lia |].
  split; [exact Hlate|]. split; [exact Hboundary | apply Hother].
Defined.

Lemma get_auth_url_witness :
  SocialAuth.get_auth_url Example.self (Example.at_time 1000)
    (Example.tok 32 Byte.x01) (Example.tok 16 Byte.x02) "github" "/dashboard"
    Example.w0
  = (Raise TypeError, Example.w0).
Proof.
  apply (get_auth_url_raises_before_it_builds_the_url
           Example.self (Example.at_time 1000)
           (Example.tok 32 Byte.x01) (Example.tok 16 Byte.x02)
           "github" "/dashboard" Example.w0
           (SocialAuth.mk_config "https://github.com/login/oauth/authorize"
              "https://github.com/login/oauth/access_token"
              "https://api.github.com/user"
              (Some "https://api.github.com/user/repos")
              "read:user user:email" None)
           (SocialAuth.mk_creds (Some "github-client") (Some "github-secret"))
           "github-client");
    [reflexivity | reflexivity | reflexivity | discriminate].
Defined.

Lemma repeated_login_witness :
  exists w',
    SocialAuth._create_or_update_user (Example.at_time 2000) (Example.tok 16 Byte.x03)
      "github" Example.github_profile Example.token_response Example.w_stored
    = (Raise TypeError, w')
    /\ Inv.rows_with "github:123456" (db w') = [Example.octocat]
    /\ User.display_name Example.octocat = PStr "Old Name".
Proof.
  destruct (repeated_login_updates_nothing (Example.at_time 2000)
              (Example.tok 16 Byte.x03) "github" Example.github_profile
              Example.token_response Example.w_stored
              (SocialAuth.mk_normalized (PStr "123456") (PStr "testuser")
                 (PStr "Test User") (PStr "https://github.com/avatar.jpg")
                 (PStr "Python developer") PNone)
              "github:123456" Example.octocat)
    as (w' & Hrun & Hrows & _);
    [vm_compute; reflexivity | reflexivity | reflexivity |].
  exists w'. split; [exact Hrun|]. split; [exact Hrows | reflexivity].
Defined.

Lemma provider_mismatch_witness :
  SocialAuth.handle_callback Example.self (Example.at_time 2000)
    (Example.tok 16 Byte.x03) (Example.tok 32 Byte.x04)
    "twitter" "code" Example.state0 Example.w_stored
  = (Raise TypeError, Example.w_stored).
Proof.
  apply (provider_mismatch_is_never_reached Example.self (Example.at_time 2000)
           (Example.tok 16 Byte.x03) (Example.tok 32 Byte.x04)
           "twitter" "code" Example.state0 Example.w_stored Example.state_row);
    [vm_compute; reflexivity | vm_compute; reflexivity | discriminate].
Defined.

Lemma expired_state_witness :
  Database.get_oauth_state (1000 + Datetime.minutes 11) Example.state0
    (db Example.w_stored)
  = Raise TypeError
  /\ Database.store_oauth_state 1000 Example.state0
       (SocialAuth._generate_code_verifier (Example.tok 32 Byte.x01)) "github"
       Database.empty
     = Raise TypeError.
Proof.
  destruct (expired_state_lookup_raises 1000 (1000 + Datetime.minutes 11)
              Example.state0
              (SocialAuth._generate_code_verifier (Example.tok 32 Byte.x01))
              "github" (db Example.w_stored) Example.state_row)
    as (_ & Hget & _); [vm_compute; reflexivity | vm_compute; reflexivity |].
  split; [exact Hget|].
  apply (expired_state_lookup_raises 1000 (1000 + Datetime.minutes 11)
           "expired" "verifier" "github"
           (Database.mk [] ∅ {[ "expired"%string :=
                                  OAuthState.mk "expired" "verifier" "github" 0
                                                (Datetime.minutes 10) ]})
           (OAuthState.mk "expired" "verifier" "github" 0 (Datetime.minutes 10))).
  - reflexivity.
  - vm_compute. reflexivity.
Defined.

Lemma failed_callback_witness :
  exists r w',
    SocialAuth.handle_callback Example.self (Example.at_time 2000)
      (Example.tok 16 Byte.x03) (Example.tok 32 Byte.x04)
      "github" "code" "unknown:/" Example.w_stored
    = (r, w')
    /\ (exists ex, r = Raise ex)
    /\ Database.users (db w') = [Example.octocat]
    /\ http_log w' = [].
Proof.
  eexists _, _. split; [apply surjective_pairing|].
  destruct (failed_callback_changes_no_store Example.self (Example.at_time 2000)
              (Example.tok 16 Byte.x03) (Example.tok 32 Byte.x04)
              "github" "code" "unknown:/" Example.w_stored _ _
              (surjective_pairing _))
    as (Hraise & Husers & _ & _ & Hlog & _).
  split; [exact Hraise|]. split; [exact Husers | exact Hlog].
Defined.

Lemma token_expiry_witness :
  SocialAuth._create_or_update_user (Example.at_time 2000) (Example.tok 16 Byte.x03)
    "github" Example.github_profile Example.token_response Example.w0
  = (Raise TypeError, Example.w0)
  /\ SocialAuth._create_or_update_user (Example.at_time 2000)
       (Example.tok 16 Byte.x03) "github" Example.github_profile
       Example.token_response Example.w_stored
     = (Raise TypeError, Example.w_stored).
Proof.
  assert (H : forall w,
            SocialAuth._create_or_update_user (Example.at_time 2000)
              (Example.tok 16 Byte.x03) "github" Example.github_profile
              Example.token_response w
            = (Raise TypeError, w)).
  { eapply (token_expiry_is_never_stored (Example.at_time 2000)
              (Example.tok 16 Byte.x03) "github" Example.github_profile
              Example.token_response (PStr "test_token")).
    - vm_compute. reflexivity.
    - reflexivity.
    - reflexivity.
    - reflexivity. }
  split; apply H.
Defined.

Lemma expertise_from_bio_witness :
  exists tags,
    SocialAuth._extract_expertise (PStr "Python developer") "twitter" PNone = Ok tags
    /\ forall tag,
         In tag tags
         <-> In tag SocialAuth.keywords
             /\ str_contains tag (str_lower "Python developer") = true.
Proof.
  apply (expertise_from_bio "Python developer" "twitter" PNone).
  - reflexivity.
  - left. reflexivity.
Defined.

Lemma null_bio_witness :
  exists n,
    SocialAuth._normalize_user_data "github"
      (PDict [ ("id", PInt 7); ("login", PStr "octocat");
               ("avatar_url", PStr "https://github.com/octocat.png");
               ("bio", PNone) ])
    = Ok n
    /\ SocialAuth._extract_expertise (SocialAuth.n_bio n) "github"
         (PDict [ ("id", PInt 7); ("login", PStr "octocat");
                  ("avatar_url", PStr "https://github.com/octocat.png");
                  ("bio", PNone) ])
       = Raise AttributeError.
Proof.
  destruct (null_bio_breaks_expertise
              (PDict [ ("id", PInt 7); ("login", PStr "octocat");
                       ("avatar_url", PStr "https://github.com/octocat.png");
                       ("bio", PNone) ])
              (PInt 7) (PStr "octocat") (PStr "https://github.com/octocat.png"))
    as (n & Hn & _ & Hraise); [reflexivity | reflexivity | reflexivity | reflexivity |].
  exists n. split; [exact Hn | apply Hraise].
Defined.

Lemma token_exchange_witness :
  SocialAuth._exchange_code_for_token Example.self (Example.at_time 2000)
    "github" "code" "verifier" Example.w0
  = (Ok Example.token_response,
     World.mk (db Example.w0)
       [ Http.Post "https://github.com/login/oauth/access_token"
           [ ("client_id", PStr "github-client");
             ("client_secret", PStr "github-secret");
             ("code", PStr "code");
             ("grant_type", PStr "authorization_code");
             ("redirect_uri", PStr "http://localhost:8000/auth/callback/github");
             ("code_verifier", PStr "verifier") ]
           [("Accept", "application/json")] ])
  /\ SocialAuth._exchange_code_for_token Example.self (Example.at_time 2000)
       "gitlab" "code" "verifier" Example.w0
     = (Raise (KeyError "gitlab"), Example.w0).
Proof.
  destruct (token_exchange_sends_one_request Example.self (Example.at_time 2000)
              "github" "code" "verifier" Example.w0) as [_ Hknown].
  destruct (Hknown (SocialAuth.mk_config "https://github.com/login/oauth/authorize"
                      "https://github.com/login/oauth/access_token"
                      "https://api.github.com/user"
                      (Some "https://api.github.com/user/repos")
                      "read:user user:email" None) eq_refl)
    as (creds & Hcreds & Hlog & _ & Hanswer).
  injection Hcreds as <-.
  specialize (Hanswer (Http.mk 200 (Some Example.token_response)) eq_refl).
  split.
  - rewrite (surjective_pairing (SocialAuth._exchange_code_for_token _ _ _ _ _ _)).
    rewrite Hlog, Hanswer. reflexivity.
  - apply (proj1 (token_exchange_sends_one_request Example.self (Example.at_time 2000)
                    "gitlab" "code" "verifier" Example.w0)).
    reflexivity.
Defined.

Lemma auth_provider_witness :
  Routes.auth_provider Example.self (Example.at_time 1000)
    (Example.tok 32 Byte.x01) (Example.tok 16 Byte.x02) "gitlab" "/" Example.w0
  = (Routes.HTTPException 400 "Unknown provider: gitlab", Example.w0)
  /\ Routes.auth_provider Example.self (Example.at_time 1000)
       (Example.tok 32 Byte.x01) (Example.tok 16 Byte.x02) "discord" "/" Example.w0
     = (Routes.HTTPException 400 "Missing DISCORD_CLIENT_ID in environment",
        Example.w0)
  /\ Routes.auth_provider Example.self (Example.at_time 1000)
       (Example.tok 32 Byte.x01) (Example.tok 16 Byte.x02) "github" "/" Example.w0
     = (Routes.Unhandled TypeError, Example.w0).
Proof.
  split; [|split].
  - apply (proj1 (auth_provider_replies Example.self (Example.at_time 1000)
                    (Example.tok 32 Byte.x01) (Example.tok 16 Byte.x02)
                    "gitlab" "/" Example.w0)).
    reflexivity.
  - apply (proj1 (proj2 (auth_provider_replies Example.self (Example.at_time 1000)
                           (Example.tok 32 Byte.x01) (Example.tok 16 Byte.x02)
                           "discord" "/" Example.w0))
             (SocialAuth.mk_creds None None));
      [discriminate | reflexivity | left; reflexivity].
  - apply (proj1 (proj2 (proj2 (auth_provider_replies Example.self
                                  (Example.at_time 1000)
                                  (Example.tok 32 Byte.x01) (Example.tok 16 Byte.x02)
                                  "github" "/" Example.w0)))
             (SocialAuth.mk_creds (Some "github-client") (Some "github-secret"))
             "github-client");
      [discriminate | reflexivity | reflexivity | discriminate].
Defined.

Lemma session_routes_witness :
  Routes.get_current_user 2000 (Some "sid"%string) (db Example.w_stored)
  = Raise TypeError
  /\ Routes.logout (Some "sid"%string) (db Example.w_stored) = Raise TypeError.
Proof.
  apply (proj2 (session_routes_raise_for_a_cookie 2000 (Some "sid"%string)
                  (db Example.w_stored)) "sid"%string);
    [reflexivity | discriminate].
Defined.

Lemma code_verifier_shape_witness :
  length (Example.tok 32 Byte.x01) = 32%nat
  /\ String.length (SocialAuth._generate_code_verifier (Example.tok 32 Byte.x01))
     = 43%nat.
Proof.
  split; [reflexivity|].
  apply (code_verifier_shape (Example.tok 32 Byte.x01)). reflexivity.
Defined.

Lemma generated_ids_shape_witness :
  String.length (SocialAuth._generate_session_id (Example.tok 32 Byte.x04)) = 43%nat.
Proof.
  apply (generated_ids_shape (Example.tok 16 Byte.x03) (Example.tok 32 Byte.x04));
    reflexivity.
Defined.

Lemma generated_tokens_witness :
  Example.tok 16 Byte.x02 = Example.tok 16 Byte.x02
  /\ "/dashboard"%string = "/dashboard"%string.
Proof.
  apply (proj1 (generated_tokens_are_injective
                  (Example.tok 16 Byte.x02) (Example.tok 16 Byte.x02)
                  "/dashboard" "/dashboard")).
  reflexivity.
Defined.

Lemma expertise_is_sorted_witness :
  Sorted Text.lt_string ["ai"; "python"; "rust"]%string.
Proof.
  apply (expertise_is_sorted (PStr "Rust and Python, some AI") "twitter" PNone).
  vm_compute. reflexivity.
Defined.

Lemma repos_fetch_witness :
  SocialAuth._get_user_info Example.self (Example.at_time 2000) "github"
    (PStr "test_token") Example.w0
  = (Ok Example.github_profile,
     World.mk (db Example.w0)
       [ Http.Get "https://api.github.com/user"
           (SocialAuth.bearer_headers "test_token") None;
         Http.Get "https://api.github.com/user/repos"
           (SocialAuth.bearer_headers "test_token")
           (Some [("sort", PStr "updated"); ("per_page", PInt 10)]) ]).
Proof.
  refine (proj1 (repos_fetch_failure_is_tolerated Example.self (Example.at_time 2000)
                   "test_token" Example.w0
                   (Http.mk 200 (Some Example.github_profile)) Example.github_profile
                   _ _ _) (Http.mk 500 None) _ _).
  - reflexivity.
  - reflexivity.
  - reflexivity.
  - reflexivity.
  - discriminate.
Defined.
